(** * Labs-deploy: weather-by-CEP service (main.go)

    A shallow embedding of the request pipeline of [main.go]:
    CEP validation, postal resolution (ViaCEP), weather resolution
    (WeatherAPI), temperature conversion and the HTTP responses.

    [main.go] is present in two revisions.  The earlier one (lines 1-181)
    is embedded in [Module V1], the later one (lines 183-388, the state
    described by CORRECOES.md) in [Module V2].  Functions that are the same
    text in both revisions ([isValidCEP], [celsiusToFahrenheit],
    [healthHandler], the routes of [main]) are embedded once.

    Conventions.
    - A Go [string] is a byte sequence: Rocq's [string], one [ascii] per byte.
    - A Go [float64] is IEEE 754 binary64: Rocq's primitive [float], whose
      operations round to nearest-even as Go's do.  Each operation is
      rounded on its own, as on amd64 (no fused multiply-add).
    - The outside world (the two upstream services and the process
      environment) is a value of type [World]; the outbound requests a
      function issues are recorded in a trace that is threaded through
      the code ([IO]).
    - What a handler hands to [json.NewEncoder(w).Encode] is recorded in
      the response as a JSON value; the bytes the encoder produces from
      it, and the [log] output, are not part of the model. *)

From Stdlib Require Import ZArith Lia Bool List Ascii String PrimFloat.
From Stdlib Require Import DecimalString.
From stdpp Require Import base option strings gmap.

#[local] Set Warnings "-register-all".

Local Open Scope string_scope.
Local Open Scope list_scope.

(* ===================================================================== *)
(** * Go's [strings] package, on byte strings *)
(* ===================================================================== *)

Module strings.

Fixpoint HasPrefix (s prefix : string) {struct prefix} : bool :=
  match prefix, s with
  | EmptyString, _ => true
  | String _ _, EmptyString => false
  | String p prefix', String c s' => Ascii.eqb c p && HasPrefix s' prefix'
  end.

Fixpoint drop (n : nat) (s : string) : string :=
  match n, s with
  | O, _ => s
  | S _, EmptyString => EmptyString
  | S k, String _ s' => drop k s'
  end.

(** [strings.TrimPrefix]: [s] without the leading [prefix], or [s]. *)
Definition TrimPrefix (s prefix : string) : string :=
  if HasPrefix s prefix then drop (String.length prefix) s else s.

(** [strings.ReplaceAll s old new] for a non-empty [old]: the
    non-overlapping occurrences of [old] are replaced from left to
    right.  [skip] counts the bytes of an occurrence still to be
    passed over. *)
Fixpoint replace_from (old new : string) (skip : nat) (s : string) : string :=
  match s with
  | EmptyString => EmptyString
  | String c s' =>
      match skip with
      | S k => replace_from old new k s'
      | O =>
          if HasPrefix s old
          then new +:+ replace_from old new (String.length old - 1) s'
          else String c (replace_from old new 0 s')
      end
  end.

Definition ReplaceAll (s old new : string) : string :=
  replace_from old new 0 s.

(** The bytes [asciiSpace] marks: tab, LF, VT, FF, CR and space. *)
Definition asciiSpace (c : ascii) : bool :=
  let n := nat_of_ascii c in
  ((9 <=? n)%nat && (n <=? 13)%nat) || (n =? 32)%nat.

(** The UTF-8 encodings of the code points above U+007F for which
    [unicode.IsSpace] holds: U+0085, U+00A0, U+1680, U+2000..U+200A,
    U+2028, U+2029, U+202F, U+205F and U+3000. *)
Definition space2 (a b : ascii) : bool :=
  (nat_of_ascii a =? 194)%nat &&
  ((nat_of_ascii b =? 133)%nat || (nat_of_ascii b =? 160)%nat).

Definition space3 (a b c : ascii) : bool :=
  let x := nat_of_ascii a in
  let y := nat_of_ascii b in
  let z := nat_of_ascii c in
  ((x =? 225) && (y =? 154) && (z =? 128))%nat
  || ((x =? 226) && (y =? 128) && (128 <=? z) && (z <=? 138))%nat
  || ((x =? 226) && (y =? 128) && ((z =? 168) || (z =? 169) || (z =? 175)))%nat
  || ((x =? 226) && (y =? 129) && (z =? 159))%nat
  || ((x =? 227) && (y =? 128) && (z =? 128))%nat.

(** Number of bytes of the white-space rune [s] starts with (0 if none). *)
Definition leading_space (s : list ascii) : nat :=
  match s with
  | a :: rest =>
      if asciiSpace a then 1
      else match rest with
           | b :: rest' =>
               if space2 a b then 2
               else match rest' with
                    | c :: _ => if space3 a b c then 3 else 0
                    | nil => 0
                    end
           | nil => 0
           end
  | nil => 0
  end.

(** The same for the rune [s] ends with; [r] is [s] reversed. *)
Definition trailing_space (r : list ascii) : nat :=
  match r with
  | a :: rest =>
      if asciiSpace a then 1
      else match rest with
           | b :: rest' =>
               if space2 b a then 2
               else match rest' with
                    | c :: _ => if space3 c b a then 3 else 0
                    | nil => 0
                    end
           | nil => 0
           end
  | nil => 0
  end.

Fixpoint trim_with (width : list ascii -> nat) (fuel : nat) (s : list ascii)
  : list ascii :=
  match fuel with
  | O => s
  | S k =>
      match width s with
      | O => s
      | S w => trim_with width k (skipn (S w) s)
      end
  end.

(** [strings.TrimSpace]: leading and trailing white-space runes removed. *)
Definition TrimSpace (s : string) : string :=
  let l := list_ascii_of_string s in
  let l1 := trim_with leading_space (List.length l) l in
  let r := rev l1 in
  string_of_list_ascii (rev (trim_with trailing_space (List.length r) r)).

End strings.

(* ===================================================================== *)
(** * Go's [regexp], as far as [`^\d{8}$`] needs it *)
(* ===================================================================== *)

Module regexp.

Inductive re : Type :=
| Void                        (* matches nothing *)
| Eps                         (* matches the empty string *)
| Class (p : ascii -> bool)   (* one byte of a class *)
| Cat (r1 r2 : re)
| Alt (r1 r2 : re)
| Star (r : re).

(** [r{n}] *)
Fixpoint Repeat (n : nat) (r : re) : re :=
  match n with
  | O => Eps
  | S k => Cat r (Repeat k r)
  end.

Fixpoint nullable (r : re) : bool :=
  match r with
  | Void => false
  | Eps => true
  | Class _ => false
  | Cat r1 r2 => nullable r1 && nullable r2
  | Alt r1 r2 => nullable r1 || nullable r2
  | Star _ => true
  end.

Fixpoint deriv (c : ascii) (r : re) : re :=
  match r with
  | Void => Void
  | Eps => Void
  | Class p => if p c then Eps else Void
  | Cat r1 r2 =>
      if nullable r1
      then Alt (Cat (deriv c r1) r2) (deriv c r2)
      else Cat (deriv c r1) r2
  | Alt r1 r2 => Alt (deriv c r1) (deriv c r2)
  | Star r1 => Cat (deriv c r1) (Star r1)
  end.

(** [r] matches the whole of [s]. *)
Fixpoint matches (r : re) (s : string) : bool :=
  match s with
  | EmptyString => nullable r
  | String c s' => matches (deriv c r) s'
  end.

(** [\d]: an ASCII decimal digit. *)
Definition digit (c : ascii) : bool :=
  let n := nat_of_ascii c in (48 <=? n)%nat && (n <=? 57)%nat.

(** [regexp.MatchString("^" + r + "$", s)]: without the [m] flag [^]
    and [$] are the beginning and the end of the text, so a match of
    the pattern is a match of [r] against all of [s]. *)
Definition MatchString_anchored (r : re) (s : string) : bool := matches r s.

End regexp.

(* ===================================================================== *)
(** * CEP validator *)
(* ===================================================================== *)

(** [func isValidCEP(cep string) bool] (the same in both revisions). *)
Definition isValidCEP (cep : string) : bool :=
  let cep := strings.ReplaceAll cep "-" "" in
  regexp.MatchString_anchored (regexp.Repeat 8 (regexp.Class regexp.digit)) cep.

(* ===================================================================== *)
(** * Temperature converter *)
(* ===================================================================== *)

#[local] Set Warnings "-inexact-float".

(** [func celsiusToFahrenheit(celsius float64) float64] (both revisions). *)
Definition celsiusToFahrenheit (celsius : float) : float :=
  (celsius * 1.8 + 32)%float.

(* ===================================================================== *)
(** * [encoding/json]: values, and decoding into the structs of main.go *)
(* ===================================================================== *)

Module json.

(** A JSON text.  A number is carried as the [float64] that
    [strconv.ParseFloat] gives for its literal. *)
Inductive Value : Type :=
| JNull
| JBool (b : bool)
| JNumber (f : float)
| JString (s : string)
| JArray (l : list Value)
| JObject (members : list (string * Value)).

(** The word [UnmarshalTypeError] uses for the JSON value it met. *)
Definition kind (v : Value) : string :=
  match v with
  | JNull => "null"
  | JBool _ => "bool"
  | JNumber _ => "number"
  | JString _ => "string"
  | JArray _ => "array"
  | JObject _ => "object"
  end.

Definition lower (c : ascii) : ascii :=
  let n := nat_of_ascii c in
  if ((65 <=? n) && (n <=? 90))%nat then ascii_of_nat (n + 32) else c.

Fixpoint fold (s : string) : string :=
  match s with
  | EmptyString => EmptyString
  | String c s' => String (lower c) (fold s')
  end.

(** An object key selects the field whose tag it equals, ignoring
    case.  The tags of main.go are lower-case ASCII without [k] or
    [s], so the comparison is the ASCII one. *)
Definition names (key tag : string) : bool := String.eqb (fold key) tag.

End json.

(* ===================================================================== *)
(** * Errors *)
(* ===================================================================== *)

(** A double quote, as a one-byte string. *)
Definition dquote : string := String (ascii_of_nat 34) EmptyString.

(** The [error] values that reach main.go, with their [Error()] text. *)
Inductive error : Type :=
| errorString (s : string)
    (* fmt.Errorf *)
| url_Error (Op URL Err : string)
    (* *url.Error, what http.Get returns on failure *)
| UnmarshalTypeError (Value Struct Field GoType : string)
    (* *json.UnmarshalTypeError: a JSON value of the wrong type *)
| DecodeError (msg : string).
    (* any other failure of Decoder.Decode: *json.SyntaxError, io.EOF,
       io.ErrUnexpectedEOF or an error reading the body; [msg] is the
       library's text *)

Definition Error (e : error) : string :=
  match e with
  | errorString s => s
  | url_Error Op URL Err => Op +:+ " " +:+ dquote +:+ URL +:+ dquote +:+ ": " +:+ Err
  | UnmarshalTypeError v s f t =>
      if negb (String.eqb s "") || negb (String.eqb f "")
      then "json: cannot unmarshal " +:+ v +:+ " into Go struct field "
             +:+ s +:+ "." +:+ f +:+ " of type " +:+ t
      else "json: cannot unmarshal " +:+ v +:+ " into Go value of type " +:+ t
  | DecodeError msg => msg
  end.

(** [%d] of an [int]. *)
Definition itoa (n : Z) : string := NilZero.string_of_int (Z.to_int n).

(* ===================================================================== *)
(** * The outside world and outbound requests *)
(* ===================================================================== *)

(** What [json.NewDecoder(resp.Body).Decode] finds in a response body:
    a first JSON value, or a failure before one is read. *)
Inductive Body : Type :=
| BodyJSON (v : json.Value)
| BodyBroken (msg : string).

Record Response : Type := { StatusCode : Z; RespBody : Body }.

Inductive GetResult : Type :=
| Unreachable (msg : string)     (* http.Get returns an error *)
| Responded (resp : Response).

Record World : Type := {
  Getenv : string -> string;       (* os.Getenv *)
  Upstream : string -> GetResult   (* the answer to a GET of a URL *)
}.

Definition StatusOK : Z := 200.
Definition StatusMovedPermanently : Z := 301.
Definition StatusBadRequest : Z := 400.
Definition StatusNotFound : Z := 404.
Definition StatusUnprocessableEntity : Z := 422.
Definition StatusInternalServerError : Z := 500.

(** Code that may issue outbound requests: the URLs requested so far
    are threaded through it, oldest first. *)
Definition IO (A : Type) : Type := list string -> A * list string.

Definition ret {A} (a : A) : IO A := fun t => (a, t).

Definition bind {A B} (m : IO A) (k : A -> IO B) : IO B :=
  fun t => let (a, t') := m t in k a t'.

Notation "'let*' p ':=' m 'in' k" := (bind m (fun p => k))
  (at level 10, p pattern, m at level 100, k at level 200).

(** [resp, err := http.Get(url)]: exactly one of [err] and [resp] is
    set; the request is recorded. *)
Definition http_Get (W : World) (url : string) : IO (error + Response) :=
  fun t =>
    (match Upstream W url with
     | Unreachable msg => inl (url_Error "Get" url msg)
     | Responded resp => inr resp
     end, t ++ [url]).

(* ===================================================================== *)
(** * [net/http]: requests and the response writer *)
(* ===================================================================== *)

Record Request : Type := {
  Method : string;
  URL_Path : string;      (* r.URL.Path, already percent-decoded *)
  RequestURI : string
}.

(** One write to the response body. *)
Inductive Payload : Type :=
| Document (v : json.Value)   (* Encoder.Encode of a value *)
| RedirectNote (url : string) (* the HTML note of http.Redirect *)
| Text (s : string).

(** The state of an [http.ResponseWriter]: the header map the handler
    edits, and what has gone out.  [status] and [sent] are fixed by the
    first [WriteHeader]; later changes of [Header] are not sent. *)
Record ResponseWriter : Type := {
  Header : gmap string string;
  status : option Z;
  sent : gmap string string;
  body : list Payload
}.

Definition NewRecorder : ResponseWriter :=
  {| Header := ∅; status := None; sent := ∅; body := [] |}.

(** [w.Header().Set(key, value)] for a key in canonical form. *)
Definition Header_Set (w : ResponseWriter) (key value : string) : ResponseWriter :=
  {| Header := <[key := value]> (Header w);
     status := status w; sent := sent w; body := body w |}.

(** [w.WriteHeader(code)]; a second call is ignored. *)
Definition WriteHeader (w : ResponseWriter) (code : Z) : ResponseWriter :=
  match status w with
  | Some _ => w
  | None =>
      {| Header := Header w; status := Some code;
         sent := Header w; body := body w |}
  end.

(** [w.Write]: sends the header with 200 first if none was sent. *)
Definition Write (w : ResponseWriter) (p : Payload) : ResponseWriter :=
  let w := WriteHeader w StatusOK in
  {| Header := Header w; status := status w; sent := sent w;
     body := body w ++ [p] |}.

(** [json.NewEncoder(w).Encode(v)], [v] given as the JSON it denotes. *)
Definition Encode (w : ResponseWriter) (v : json.Value) : ResponseWriter :=
  Write w (Document v).

Definition HandlerFunc : Type := ResponseWriter -> Request -> IO ResponseWriter.

(* ===================================================================== *)
(** * The structs of main.go and their JSON forms *)
(* ===================================================================== *)

Record WeatherResponse : Type := {
  TempC : float;   (* `json:"temp_C"` *)
  TempF : float;   (* `json:"temp_F"` *)
  TempK : float    (* `json:"temp_K"` *)
}.

Record ErrorResponse : Type := {
  Message : string (* `json:"message"` *)
}.

Definition marshal_WeatherResponse (v : WeatherResponse) : json.Value :=
  json.JObject [("temp_C", json.JNumber (TempC v));
                ("temp_F", json.JNumber (TempF v));
                ("temp_K", json.JNumber (TempK v))].

Definition marshal_ErrorResponse (v : ErrorResponse) : json.Value :=
  json.JObject [("message", json.JString (Message v))].

(** [map[string]string{"status": "ok"}] *)
Definition status_ok : json.Value :=
  json.JObject [("status", json.JString "ok")].

Record WeatherAPIResponse : Type := {
  Location_Name : string;  (* Location.Name, `json:"location"` / `json:"name"` *)
  Current_TempC : float    (* Current.TempC, `json:"current"` / `json:"temp_c"` *)
}.

(** Decoding keeps the first error and goes on with the other members. *)
Definition keep {A} (old : option error) (new : A * option error) : A * option error :=
  match old with
  | Some e => (fst new, Some e)
  | None => new
  end.

(** A JSON value into a [string] field: [null] leaves the field as it is. *)
Definition into_string (struct_ field : string) (v : json.Value) (old : string)
  : string * option error :=
  match v with
  | json.JString s => (s, None)
  | json.JNull => (old, None)
  | _ => (old, Some (UnmarshalTypeError (json.kind v) struct_ field "string"))
  end.

Definition into_bool (struct_ field : string) (v : json.Value) (old : bool)
  : bool * option error :=
  match v with
  | json.JBool b => (b, None)
  | json.JNull => (old, None)
  | _ => (old, Some (UnmarshalTypeError (json.kind v) struct_ field "bool"))
  end.

Definition into_float64 (struct_ field : string) (v : json.Value) (old : float)
  : float * option error :=
  match v with
  | json.JNumber f => (f, None)
  | json.JNull => (old, None)
  | _ => (old, Some (UnmarshalTypeError (json.kind v) struct_ field "float64"))
  end.

(** A JSON value into an [interface{}] field: every value is accepted;
    [null] gives [nil]. *)
Definition into_interface (v : json.Value) : option json.Value :=
  match v with
  | json.JNull => None
  | _ => Some v
  end.

(** The name reflection gives the type of an anonymous one-field struct:
    the field, then its json tag as a quoted Go string literal. *)
Definition anonymous_struct (field tag : string) : string :=
  "struct { " +:+ field +:+ " " +:+ dquote +:+ "json:\" +:+ dquote +:+ tag
    +:+ "\" +:+ dquote +:+ dquote +:+ " }".

Definition decode_Location (members : list (string * json.Value)) (old : string)
  : string * option error :=
  fold_left (fun (acc : string * option error) (m : string * json.Value) =>
               if json.names (fst m) "name"
               then keep (snd acc)
                      (into_string "WeatherAPIResponse" "location.name" (snd m) (fst acc))
               else acc)
            members (old, None).

Definition decode_Current (members : list (string * json.Value)) (old : float)
  : float * option error :=
  fold_left (fun (acc : float * option error) (m : string * json.Value) =>
               if json.names (fst m) "temp_c"
               then keep (snd acc)
                      (into_float64 "WeatherAPIResponse" "current.temp_c" (snd m) (fst acc))
               else acc)
            members (old, None).

Definition WeatherAPI_member (acc : WeatherAPIResponse * option error)
    (m : string * json.Value) : WeatherAPIResponse * option error :=
  let s := fst acc in
  if json.names (fst m) "location" then
    match snd m with
    | json.JObject ms =>
        let (n, e) := decode_Location ms (Location_Name s) in
        keep (snd acc) ({| Location_Name := n; Current_TempC := Current_TempC s |}, e)
    | json.JNull => acc
    | v => keep (snd acc)
             (s, Some (UnmarshalTypeError (json.kind v) "WeatherAPIResponse" "location"
                         (anonymous_struct "Name string" "name")))
    end
  else if json.names (fst m) "current" then
    match snd m with
    | json.JObject ms =>
        let (t, e) := decode_Current ms (Current_TempC s) in
        keep (snd acc) ({| Location_Name := Location_Name s; Current_TempC := t |}, e)
    | json.JNull => acc
    | v => keep (snd acc)
             (s, Some (UnmarshalTypeError (json.kind v) "WeatherAPIResponse" "current"
                         (anonymous_struct "TempC float64" "temp_c")))
    end
  else acc.

(** [json.NewDecoder(resp.Body).Decode(&weatherAPI)] on a fresh struct. *)
Definition Decode_WeatherAPIResponse (b : Body) : WeatherAPIResponse * option error :=
  let zero := {| Location_Name := ""; Current_TempC := 0%float |} in
  match b with
  | BodyBroken msg => (zero, Some (DecodeError msg))
  | BodyJSON (json.JObject ms) => fold_left WeatherAPI_member ms (zero, None)
  | BodyJSON json.JNull => (zero, None)
  | BodyJSON v =>
      (zero, Some (UnmarshalTypeError (json.kind v) "" "" "main.WeatherAPIResponse"))
  end.

(* ===================================================================== *)
(** * [net/http]: the request multiplexer (Go 1.21) *)
(* ===================================================================== *)

Module path.

(** The elements of [s] between its slashes. *)
Fixpoint elements (s : string) : list string :=
  match s with
  | EmptyString => [EmptyString]
  | String c s' =>
      if Ascii.eqb c "/"%char then EmptyString :: elements s'
      else match elements s' with
           | x :: xs => String c x :: xs
           | [] => [String c EmptyString]
           end
  end.

(** One element of a rooted path met by [path.Clean]; [kept] holds the
    elements kept so far, last first. *)
Definition step (kept : list string) (elem : string) : list string :=
  if String.eqb elem "" then kept
  else if String.eqb elem "." then kept
  else if String.eqb elem ".." then tl kept
  else elem :: kept.

Fixpoint join (l : list string) : string :=
  match l with
  | [] => EmptyString
  | [x] => x
  | x :: rest => x +:+ "/" +:+ join rest
  end.

(** [path.Clean] of a path that begins with a slash. *)
Definition Clean (p : string) : string :=
  "/" +:+ join (rev (fold_left step (elements p) [])).

End path.

Module http.

Definition ends_in_slash (s : string) : bool :=
  match rev (list_ascii_of_string s) with
  | c :: _ => Ascii.eqb c "/"%char
  | [] => false
  end.

(** [cleanPath]: the canonical form of a request path. *)
Definition cleanPath (p : string) : string :=
  if String.eqb p "" then "/"
  else
    let p := if strings.HasPrefix p "/" then p else "/" +:+ p in
    let np := path.Clean p in
    if ends_in_slash p && negb (String.eqb np "/") then np +:+ "/" else np.

(** The registered patterns with their handlers, in registration order. *)
Definition ServeMux : Type := list (string * HandlerFunc).

Definition HandleFunc (mux : ServeMux) (pattern : string) (h : HandlerFunc)
  : ServeMux := mux ++ [(pattern, h)].

(** [mux.m[path]] *)
Definition exact (mux : ServeMux) (p : string) : option HandlerFunc :=
  snd <$> List.find (fun e => String.eqb (fst e) p) mux.

(** The longest pattern ending in a slash that is a prefix of [p]. *)
Definition longest (mux : ServeMux) (p : string) : option (string * HandlerFunc) :=
  fold_left
    (fun (best : option (string * HandlerFunc)) (e : string * HandlerFunc) =>
       if ends_in_slash (fst e) && strings.HasPrefix p (fst e) then
         match best with
         | Some b =>
             if (String.length (fst b) <? String.length (fst e))%nat
             then Some e else best
         | None => Some e
         end
       else best)
    mux None.

(** [http.NotFound] *)
Definition NotFoundHandler : HandlerFunc := fun w _ =>
  let w := Header_Set w "Content-Type" "text/plain; charset=utf-8" in
  let w := Header_Set w "X-Content-Type-Options" "nosniff" in
  let w := WriteHeader w StatusNotFound in
  ret (Write w (Text "404 page not found")).

(** [http.RedirectHandler(url, code)].  [url] stands for the target
    URL; its escaping and the query of the request are left out. *)
Definition RedirectHandler (url : string) (code : Z) : HandlerFunc := fun w r =>
  let hadCT := bool_decide (is_Some (Header w !! "Content-Type")) in
  let w := Header_Set w "Location" url in
  let w := if negb hadCT && (String.eqb (Method r) "GET" || String.eqb (Method r) "HEAD")
           then Header_Set w "Content-Type" "text/html; charset=utf-8" else w in
  let w := WriteHeader w code in
  ret (if negb hadCT && String.eqb (Method r) "GET"
       then Write w (RedirectNote url) else w).

(** [mux.match] followed by the fall-back of [mux.handler]. *)
Definition handler (mux : ServeMux) (p : string) : HandlerFunc :=
  match exact mux p with
  | Some h => h
  | None =>
      match longest mux p with
      | Some e => snd e
      | None => NotFoundHandler
      end
  end.

(** [shouldRedirectRLocked]: [p] is not registered, [p/] is. *)
Definition shouldRedirect (mux : ServeMux) (p : string) : bool :=
  match exact mux p with
  | Some _ => false
  | None =>
      if String.eqb p "" then false
      else match exact mux (p +:+ "/") with
           | Some _ => negb (ends_in_slash p)
           | None => false
           end
  end.

(** [mux.Handler(r)] *)
Definition Handler (mux : ServeMux) (r : Request) : HandlerFunc :=
  if String.eqb (Method r) "CONNECT" then
    if shouldRedirect mux (URL_Path r)
    then RedirectHandler (URL_Path r +:+ "/") StatusMovedPermanently
    else handler mux (URL_Path r)
  else
    let p := cleanPath (URL_Path r) in
    if shouldRedirect mux p
    then RedirectHandler (p +:+ "/") StatusMovedPermanently
    else if negb (String.eqb p (URL_Path r))
    then RedirectHandler p StatusMovedPermanently
    else handler mux (URL_Path r).

(** [mux.ServeHTTP(w, r)]; the Connection header is the one of an
    HTTP/1.1 request. *)
Definition ServeHTTP (mux : ServeMux) : HandlerFunc := fun w r =>
  if String.eqb (RequestURI r) "*"
  then ret (WriteHeader (Header_Set w "Connection" "close") StatusBadRequest)
  else Handler mux r w r.

End http.

(* ===================================================================== *)
(** * Health check (both revisions) *)
(* ===================================================================== *)

(** [func healthHandler(w http.ResponseWriter, r *http.Request)] *)
Definition healthHandler : HandlerFunc := fun w r =>
  let w := WriteHeader w StatusOK in
  ret (Encode w status_ok).

(* ===================================================================== *)
(** * main.go, earlier revision (lines 1-181) *)
(* ===================================================================== *)

Module V1.

Record ViaCEPResponse : Type := {
  Cep : string;          (* `json:"cep"` *)
  Logradouro : string;   (* `json:"logradouro"` *)
  Complemento : string;  (* `json:"complemento"` *)
  Bairro : string;       (* `json:"bairro"` *)
  Localidade : string;   (* `json:"localidade"` *)
  UF : string;           (* `json:"uf"` *)
  Erro : bool            (* `json:"erro"` *)
}.

Definition zero : ViaCEPResponse :=
  {| Cep := ""; Logradouro := ""; Complemento := ""; Bairro := "";
     Localidade := ""; UF := ""; Erro := false |}.

Definition ViaCEP_member (acc : ViaCEPResponse * option error)
    (m : string * json.Value) : ViaCEPResponse * option error :=
  let s := fst acc in
  let str field := into_string "ViaCEPResponse" field (snd m) in
  if json.names (fst m) "cep" then
    let (x, e) := str "cep" (Cep s) in
    keep (snd acc)
      ({| Cep := x; Logradouro := Logradouro s; Complemento := Complemento s;
          Bairro := Bairro s; Localidade := Localidade s; UF := UF s; Erro := Erro s |}, e)
  else if json.names (fst m) "logradouro" then
    let (x, e) := str "logradouro" (Logradouro s) in
    keep (snd acc)
      ({| Cep := Cep s; Logradouro := x; Complemento := Complemento s;
          Bairro := Bairro s; Localidade := Localidade s; UF := UF s; Erro := Erro s |}, e)
  else if json.names (fst m) "complemento" then
    let (x, e) := str "complemento" (Complemento s) in
    keep (snd acc)
      ({| Cep := Cep s; Logradouro := Logradouro s; Complemento := x;
          Bairro := Bairro s; Localidade := Localidade s; UF := UF s; Erro := Erro s |}, e)
  else if json.names (fst m) "bairro" then
    let (x, e) := str "bairro" (Bairro s) in
    keep (snd acc)
      ({| Cep := Cep s; Logradouro := Logradouro s; Complemento := Complemento s;
          Bairro := x; Localidade := Localidade s; UF := UF s; Erro := Erro s |}, e)
  else if json.names (fst m) "localidade" then
    let (x, e) := str "localidade" (Localidade s) in
    keep (snd acc)
      ({| Cep := Cep s; Logradouro := Logradouro s; Complemento := Complemento s;
          Bairro := Bairro s; Localidade := x; UF := UF s; Erro := Erro s |}, e)
  else if json.names (fst m) "uf" then
    let (x, e) := str "uf" (UF s) in
    keep (snd acc)
      ({| Cep := Cep s; Logradouro := Logradouro s; Complemento := Complemento s;
          Bairro := Bairro s; Localidade := Localidade s; UF := x; Erro := Erro s |}, e)
  else if json.names (fst m) "erro" then
    let (x, e) := into_bool "ViaCEPResponse" "erro" (snd m) (Erro s) in
    keep (snd acc)
      ({| Cep := Cep s; Logradouro := Logradouro s; Complemento := Complemento s;
          Bairro := Bairro s; Localidade := Localidade s; UF := UF s; Erro := x |}, e)
  else acc.

(** [json.NewDecoder(resp.Body).Decode(&viaCEP)] on a fresh struct. *)
Definition Decode_ViaCEPResponse (b : Body) : ViaCEPResponse * option error :=
  match b with
  | BodyBroken msg => (zero, Some (DecodeError msg))
  | BodyJSON (json.JObject ms) => fold_left ViaCEP_member ms (zero, None)
  | BodyJSON json.JNull => (zero, None)
  | BodyJSON v =>
      (zero, Some (UnmarshalTypeError (json.kind v) "" "" "main.ViaCEPResponse"))
  end.

(** [func celsiusToKelvin(celsius float64) float64] *)
Definition celsiusToKelvin (celsius : float) : float := (celsius + 273)%float.

Section Handlers.
Variable W : World.

(** [func getLocationByCEP(cep string) (string, error)] *)
Definition getLocationByCEP (cep : string) : IO (string * option error) :=
  let cep := strings.ReplaceAll cep "-" "" in
  let url := "https://viacep.com.br/ws/" +:+ cep +:+ "/json/" in
  let* got := http_Get W url in
  match got with
  | inl err => ret ("", Some err)
  | inr resp =>
      if negb (StatusCode resp =? StatusOK)%Z then
        ret ("", Some (errorString "CEP not found"))
      else
        let (viaCEP, err) := Decode_ViaCEPResponse (RespBody resp) in
        match err with
        | Some err => ret ("", Some err)
        | None =>
            if Erro viaCEP then ret ("", Some (errorString "CEP not found"))
            else ret (Localidade viaCEP +:+ "," +:+ UF viaCEP, None)
        end
  end.

(** [func getTemperature(location string) (float64, error)]; a missing
    key is only logged. *)
Definition getTemperature (location : string) : IO (float * option error) :=
  let apiKey := Getenv W "WEATHER_API_KEY" in
  let url := "http://api.weatherapi.com/v1/current.json?key=" +:+ apiKey
               +:+ "&q=" +:+ location +:+ "&aqi=no" in
  let* got := http_Get W url in
  match got with
  | inl err => ret (0%float, Some err)
  | inr resp =>
      if negb (StatusCode resp =? StatusOK)%Z then
        ret (0%float,
             Some (errorString ("weather API error: status " +:+ itoa (StatusCode resp))))
      else
        let (weatherAPI, err) := Decode_WeatherAPIResponse (RespBody resp) in
        match err with
        | Some err => ret (0%float, Some err)
        | None => ret (Current_TempC weatherAPI, None)
        end
  end.

(** [func weatherHandler(w http.ResponseWriter, r *http.Request)] *)
Definition weatherHandler : HandlerFunc := fun w r =>
  let w := Header_Set w "Content-Type" "application/json" in
  let path := strings.TrimPrefix (URL_Path r) "/weather/" in
  let cep := strings.TrimSpace path in
  if negb (isValidCEP cep) then
    let w := WriteHeader w StatusUnprocessableEntity in
    ret (Encode w (marshal_ErrorResponse {| Message := "invalid zipcode" |}))
  else
    let* (location, err) := getLocationByCEP cep in
    match err with
    | Some err =>
        if String.eqb (Error err) "CEP not found" then
          let w := WriteHeader w StatusNotFound in
          ret (Encode w (marshal_ErrorResponse {| Message := "can not find zipcode" |}))
        else
          let w := WriteHeader w StatusInternalServerError in
          ret (Encode w (marshal_ErrorResponse {| Message := "internal server error" |}))
    | None =>
        let* (tempC, err) := getTemperature location in
        match err with
        | Some _ =>
            let w := WriteHeader w StatusInternalServerError in
            ret (Encode w
                   (marshal_ErrorResponse {| Message := "error fetching weather data" |}))
        | None =>
            let tempF := celsiusToFahrenheit tempC in
            let tempK := celsiusToKelvin tempC in
            let w := WriteHeader w StatusOK in
            ret (Encode w (marshal_WeatherResponse
                             {| TempC := tempC; TempF := tempF; TempK := tempK |}))
        end
    end.

(** The routes [main] registers on the default multiplexer. *)
Definition routes : http.ServeMux :=
  http.HandleFunc (http.HandleFunc [] "/weather/" weatherHandler) "/" healthHandler.

(** The server [http.ListenAndServe(":"+port, nil)] runs. *)
Definition serve : HandlerFunc := http.ServeHTTP routes.

End Handlers.

End V1.

(* ===================================================================== *)
(** * [net/url]: query escaping *)
(* ===================================================================== *)

Module url.

(** Bytes [shouldEscape] leaves alone in a query component: letters,
    digits and the marks [-], [_], [.] and [~]. *)
Definition unreserved (c : ascii) : bool :=
  let n := nat_of_ascii c in
  ((97 <=? n) && (n <=? 122))%nat
  || ((65 <=? n) && (n <=? 90))%nat
  || ((48 <=? n) && (n <=? 57))%nat
  || (n =? 45)%nat || (n =? 95)%nat || (n =? 46)%nat || (n =? 126)%nat.

(** ["0123456789ABCDEF"[d]] *)
Definition upperhex (d : nat) : ascii :=
  if (d <? 10)%nat then ascii_of_nat (48 + d) else ascii_of_nat (55 + d).

Definition escape_byte (c : ascii) : string :=
  if unreserved c then String c EmptyString
  else if Ascii.eqb c " "%char then "+"
  else
    let n := nat_of_ascii c in
    String "%"%char
      (String (upperhex (n / 16)) (String (upperhex (n mod 16)) EmptyString)).

(** [url.QueryEscape] *)
Fixpoint QueryEscape (s : string) : string :=
  match s with
  | EmptyString => EmptyString
  | String c s' => escape_byte c +:+ QueryEscape s'
  end.

(** The value of a hexadecimal digit. *)
Definition unhex (c : ascii) : option nat :=
  let n := nat_of_ascii c in
  if ((48 <=? n) && (n <=? 57))%nat then Some (n - 48)
  else if ((97 <=? n) && (n <=? 102))%nat then Some (n - 87)
  else if ((65 <=? n) && (n <=? 70))%nat then Some (n - 55)
  else None.

(** [url.QueryUnescape]: [None] stands for its [EscapeError]. *)
Fixpoint QueryUnescape (s : string) : option string :=
  match s with
  | EmptyString => Some EmptyString
  | String c s' =>
      if Ascii.eqb c "%"%char then
        match s' with
        | String h (String l s'') =>
            match unhex h, unhex l, QueryUnescape s'' with
            | Some x, Some y, Some rest =>
                Some (String (ascii_of_nat (16 * x + y)) rest)
            | _, _, _ => None
            end
        | _ => None
        end
      else
        match QueryUnescape s' with
        | Some rest =>
            Some (String (if Ascii.eqb c "+"%char then " "%char else c) rest)
        | None => None
        end
  end.

End url.

(* ===================================================================== *)
(** * main.go, later revision (lines 183-388) *)
(* ===================================================================== *)

Module V2.

Record ViaCEPResponse : Type := {
  Cep : string;               (* `json:"cep"` *)
  Logradouro : string;        (* `json:"logradouro"` *)
  Complemento : string;       (* `json:"complemento"` *)
  Bairro : string;            (* `json:"bairro"` *)
  Localidade : string;        (* `json:"localidade"` *)
  UF : string;                (* `json:"uf"` *)
  Erro : option json.Value    (* interface{} `json:"erro,omitempty"`; nil is None *)
}.

Definition zero : ViaCEPResponse :=
  {| Cep := ""; Logradouro := ""; Complemento := ""; Bairro := "";
     Localidade := ""; UF := ""; Erro := None |}.

Definition ViaCEP_member (acc : ViaCEPResponse * option error)
    (m : string * json.Value) : ViaCEPResponse * option error :=
  let s := fst acc in
  let str field := into_string "ViaCEPResponse" field (snd m) in
  if json.names (fst m) "cep" then
    let (x, e) := str "cep" (Cep s) in
    keep (snd acc)
      ({| Cep := x; Logradouro := Logradouro s; Complemento := Complemento s;
          Bairro := Bairro s; Localidade := Localidade s; UF := UF s; Erro := Erro s |}, e)
  else if json.names (fst m) "logradouro" then
    let (x, e) := str "logradouro" (Logradouro s) in
    keep (snd acc)
      ({| Cep := Cep s; Logradouro := x; Complemento := Complemento s;
          Bairro := Bairro s; Localidade := Localidade s; UF := UF s; Erro := Erro s |}, e)
  else if json.names (fst m) "complemento" then
    let (x, e) := str "complemento" (Complemento s) in
    keep (snd acc)
      ({| Cep := Cep s; Logradouro := Logradouro s; Complemento := x;
          Bairro := Bairro s; Localidade := Localidade s; UF := UF s; Erro := Erro s |}, e)
  else if json.names (fst m) "bairro" then
    let (x, e) := str "bairro" (Bairro s) in
    keep (snd acc)
      ({| Cep := Cep s; Logradouro := Logradouro s; Complemento := Complemento s;
          Bairro := x; Localidade := Localidade s; UF := UF s; Erro := Erro s |}, e)
  else if json.names (fst m) "localidade" then
    let (x, e) := str "localidade" (Localidade s) in
    keep (snd acc)
      ({| Cep := Cep s; Logradouro := Logradouro s; Complemento := Complemento s;
          Bairro := Bairro s; Localidade := x; UF := UF s; Erro := Erro s |}, e)
  else if json.names (fst m) "uf" then
    let (x, e) := str "uf" (UF s) in
    keep (snd acc)
      ({| Cep := Cep s; Logradouro := Logradouro s; Complemento := Complemento s;
          Bairro := Bairro s; Localidade := Localidade s; UF := x; Erro := Erro s |}, e)
  else if json.names (fst m) "erro" then
    keep (snd acc)
      ({| Cep := Cep s; Logradouro := Logradouro s; Complemento := Complemento s;
          Bairro := Bairro s; Localidade := Localidade s; UF := UF s;
          Erro := into_interface (snd m) |}, None)
  else acc.

(** [json.NewDecoder(resp.Body).Decode(&viaCEP)] on a fresh struct. *)
Definition Decode_ViaCEPResponse (b : Body) : ViaCEPResponse * option error :=
  match b with
  | BodyBroken msg => (zero, Some (DecodeError msg))
  | BodyJSON (json.JObject ms) => fold_left ViaCEP_member ms (zero, None)
  | BodyJSON json.JNull => (zero, None)
  | BodyJSON v =>
      (zero, Some (UnmarshalTypeError (json.kind v) "" "" "main.ViaCEPResponse"))
  end.

(** [func celsiusToKelvin(celsius float64) float64] *)
Definition celsiusToKelvin (celsius : float) : float := (celsius + 273.15)%float.

Section Handlers.
Variable W : World.

(** [func getLocationByCEP(cep string) (string, error)] *)
Definition getLocationByCEP (cep : string) : IO (string * option error) :=
  let cep := strings.ReplaceAll cep "-" "" in
  let url := "https://viacep.com.br/ws/" +:+ cep +:+ "/json/" in
  let* got := http_Get W url in
  match got with
  | inl err => ret ("", Some err)
  | inr resp =>
      if negb (StatusCode resp =? StatusOK)%Z then
        ret ("", Some (errorString "CEP not found"))
      else
        let (viaCEP, err) := Decode_ViaCEPResponse (RespBody resp) in
        match err with
        | Some err => ret ("", Some err)
        | None =>
            if bool_decide (Erro viaCEP <> None) || String.eqb (Localidade viaCEP) ""
            then ret ("", Some (errorString "CEP not found"))
            else ret (Localidade viaCEP +:+ "," +:+ UF viaCEP, None)
        end
  end.

(** [func getTemperature(location string) (float64, error)]; the body
    of a non-200 answer is read for the log only. *)
Definition getTemperature (location : string) : IO (float * option error) :=
  let apiKey := Getenv W "WEATHER_API_KEY" in
  if String.eqb apiKey "" then
    ret (0%float, Some (errorString "weather API key not configured"))
  else
    let encodedLocation := url.QueryEscape location in
    let weatherURL := "https://api.weatherapi.com/v1/current.json?key=" +:+ apiKey
                        +:+ "&q=" +:+ encodedLocation +:+ "&aqi=no" in
    let* got := http_Get W weatherURL in
    match got with
    | inl err =>
        ret (0%float,
             Some (errorString ("failed to connect to weather API: " +:+ Error err)))
    | inr resp =>
        if negb (StatusCode resp =? StatusOK)%Z then
          ret (0%float,
               Some (errorString
                       ("weather API error: status " +:+ itoa (StatusCode resp))))
        else
          let (weatherAPI, err) := Decode_WeatherAPIResponse (RespBody resp) in
          match err with
          | Some err =>
              ret (0%float,
                   Some (errorString ("failed to parse weather data: " +:+ Error err)))
          | None => ret (Current_TempC weatherAPI, None)
          end
    end.

(** [func weatherHandler(w http.ResponseWriter, r *http.Request)] *)
Definition weatherHandler : HandlerFunc := fun w r =>
  let w := Header_Set w "Content-Type" "application/json" in
  let path := strings.TrimPrefix (URL_Path r) "/weather/" in
  let cep := strings.TrimSpace path in
  if negb (isValidCEP cep) then
    let w := WriteHeader w StatusUnprocessableEntity in
    ret (Encode w (marshal_ErrorResponse {| Message := "invalid zipcode" |}))
  else
    let* (location, err) := getLocationByCEP cep in
    match err with
    | Some err =>
        if String.eqb (Error err) "CEP not found" then
          let w := WriteHeader w StatusNotFound in
          ret (Encode w (marshal_ErrorResponse {| Message := "can not find zipcode" |}))
        else
          let w := WriteHeader w StatusInternalServerError in
          ret (Encode w (marshal_ErrorResponse {| Message := "internal server error" |}))
    | None =>
        let* (tempC, err) := getTemperature location in
        match err with
        | Some _ =>
            let w := WriteHeader w StatusInternalServerError in
            ret (Encode w
                   (marshal_ErrorResponse {| Message := "error fetching weather data" |}))
        | None =>
            let tempF := celsiusToFahrenheit tempC in
            let tempK := celsiusToKelvin tempC in
            let w := WriteHeader w StatusOK in
            ret (Encode w (marshal_WeatherResponse
                             {| TempC := tempC; TempF := tempF; TempK := tempK |}))
        end
    end.

(** The routes [main] registers on the default multiplexer. *)
Definition routes : http.ServeMux :=
  http.HandleFunc (http.HandleFunc [] "/weather/" weatherHandler) "/" healthHandler.

(** The server [http.ListenAndServe(":"+port, nil)] runs. *)
Definition serve : HandlerFunc := http.ServeHTTP routes.

End Handlers.

End V2.

(* ===================================================================== *)
(** * Vocabulary of the statements *)
(* ===================================================================== *)

(** The response a handler leaves when it sets the JSON content type,
    writes the status [code] and encodes [v], on a fresh writer. *)
Definition reply (code : Z) (v : json.Value) : ResponseWriter :=
  {| Header := {["Content-Type" := "application/json"]};
     status := Some code;
     sent := {["Content-Type" := "application/json"]};
     body := [Document v] |}.

Definition message (text : string) : json.Value :=
  json.JObject [("message", json.JString text)].

Definition ViaCEP_url (cep : string) : string :=
  "https://viacep.com.br/ws/" +:+ strings.ReplaceAll cep "-" "" +:+ "/json/".

Definition WeatherAPI_url (apiKey location : string) : string :=
  "https://api.weatherapi.com/v1/current.json?key=" +:+ apiKey
    +:+ "&q=" +:+ url.QueryEscape location +:+ "&aqi=no".

(** The CEP a request to the weather route carries. *)
Definition cep_of (r : Request) : string :=
  strings.TrimSpace (strings.TrimPrefix (URL_Path r) "/weather/").

Fixpoint all_bytes (p : ascii -> bool) (s : string) : bool :=
  match s with
  | EmptyString => true
  | String c s' => p c && all_bytes p s'
  end.

Fixpoint count_bytes (p : ascii -> bool) (s : string) : nat :=
  match s with
  | EmptyString => 0
  | String c s' => (if p c then 1 else 0) + count_bytes p s'
  end.

Fixpoint filter_bytes (p : ascii -> bool) (s : string) : string :=
  match s with
  | EmptyString => EmptyString
  | String c s' => if p c then String c (filter_bytes p s') else filter_bytes p s'
  end.

Definition hyphen (c : ascii) : bool := Ascii.eqb c "-"%char.

(** The validator as section 4.1 of the specification words it: one
    optional separator is removed (the first hyphen, if there is one),
    and the rest must be exactly eight decimal digits. *)
Fixpoint spec_strip_one_separator (s : string) : string :=
  match s with
  | EmptyString => EmptyString
  | String c s' => if hyphen c then s' else String c (spec_strip_one_separator s')
  end.

Definition spec_isValidCEP (cep : string) : bool :=
  let cep := spec_strip_one_separator cep in
  (String.length cep =? 8)%nat && all_bytes regexp.digit cep.

(** A member of a ViaCEP answer that goes into one of the six string
    fields carries a string or [null]. *)
Definition string_tag (key : string) : bool :=
  json.names key "cep" || json.names key "logradouro" || json.names key "complemento"
  || json.names key "bairro" || json.names key "localidade" || json.names key "uf".

Definition string_or_null (v : json.Value) : bool :=
  match v with
  | json.JString _ | json.JNull => true
  | _ => false
  end.

Definition string_fields_ok (members : list (string * json.Value)) : bool :=
  forallb (fun m => if string_tag (fst m) then string_or_null (snd m) else true) members.

(** The two forms of the "erro" indicator. *)
Definition flag_or_text (v : json.Value) : bool :=
  match v with
  | json.JBool _ | json.JString _ => true
  | _ => false
  end.

(** [members] has a member "erro" (in any letter case) that is a
    boolean or a string and is not followed by another "erro". *)
Definition has_erro (members : list (string * json.Value)) : Prop :=
  exists before key v after,
    members = before ++ (key, v) :: after
    /\ json.names key "erro" = true
    /\ flag_or_text v = true
    /\ forallb (fun m => negb (json.names (fst m) "erro")) after = true.

(** No member gives a non-empty city. *)
Definition empty_city (members : list (string * json.Value)) : bool :=
  forallb (fun m => if json.names (fst m) "localidade"
                    then match snd m with
                         | json.JString s => String.eqb s ""
                         | _ => true
                         end
                    else true) members.

(** What [healthHandler] leaves on a fresh writer: no header was set. *)
Definition health_reply : ResponseWriter :=
  {| Header := ∅; status := Some 200%Z; sent := ∅; body := [Document status_ok] |}.

(** The two routes of [main], for any two handlers. *)
Definition two_routes (weather health : HandlerFunc) : http.ServeMux :=
  http.HandleFunc (http.HandleFunc [] "/weather/" weather) "/" health.

Definition GET (p : string) : Request :=
  {| Method := "GET"; URL_Path := p; RequestURI := p |}.

(** A world without credential in which no upstream answers. *)
Definition offline : World :=
  {| Getenv := fun _ => ""; Upstream := fun _ => Unreachable "no such host" |}.

(** The city name with its a-tilde in UTF-8. *)
Definition Sao_Paulo : string :=
  "S" +:+ String (ascii_of_nat 195) (String (ascii_of_nat 163) "o Paulo").

(** A world with a credential, in which ViaCEP knows one CEP, answers
    some others in the ways the resolver has to tell apart and cannot be
    reached for the rest, and the weather service reports 25 degrees
    everywhere. *)
Definition sunny : World :=
  {| Getenv := fun name => if String.eqb name "WEATHER_API_KEY" then "k3y" else "";
     Upstream := fun u =>
       if String.eqb u "https://viacep.com.br/ws/01310100/json/" then
         Responded {| StatusCode := 200;
                      RespBody := BodyJSON (json.JObject
                        [("cep", json.JString "01310-100");
                         ("localidade", json.JString Sao_Paulo);
                         ("uf", json.JString "SP")]) |}
       else if String.eqb u "https://viacep.com.br/ws/99999999/json/" then
         Responded {| StatusCode := 200;
                      RespBody := BodyJSON (json.JObject
                        [("erro", json.JString "true")]) |}
       else if String.eqb u "https://viacep.com.br/ws/66666666/json/" then
         Responded {| StatusCode := 200;
                      RespBody := BodyJSON (json.JObject
                        [("erro", json.JBool true)]) |}
       else if String.eqb u "https://viacep.com.br/ws/55555555/json/" then
         Responded {| StatusCode := 200;
                      RespBody := BodyJSON (json.JObject
                        [("cep", json.JString "55555-555");
                         ("localidade", json.JString "");
                         ("uf", json.JString "PE")]) |}
       else if String.eqb u "https://viacep.com.br/ws/88888888/json/" then
         Responded {| StatusCode := 400; RespBody := BodyBroken "EOF" |}
       else if String.eqb u "https://viacep.com.br/ws/77777777/json/" then
         Responded {| StatusCode := 200; RespBody := BodyBroken "unexpected EOF" |}
       else if strings.HasPrefix u "https://viacep.com.br/" then
         Unreachable "dial tcp: i/o timeout"
       else
         Responded {| StatusCode := 200;
                      RespBody := BodyJSON (json.JObject
                        [("current", json.JObject [("temp_c", json.JNumber 25)])]) |} |}.

(** The string a string field ends with after the members [members],
    when it held [old]: that of the last member naming [tag] that is a
    string. *)
Definition last_string (tag : string) (members : list (string * json.Value))
    (old : string) : string :=
  fold_left (fun acc m =>
               if json.names (fst m) tag
               then match snd m with
                    | json.JString s => s
                    | _ => acc
                    end
               else acc)
            members old.

(** Every member "erro", if there is one, is [null]. *)
Definition no_erro (members : list (string * json.Value)) : bool :=
  forallb (fun m => if json.names (fst m) "erro"
                    then match snd m with
                         | json.JNull => true
                         | _ => false
                         end
                    else true) members.


(** A value for the struct field [Location]: an object whose "name",
    if any, is a string or [null]; or [null]. *)
Definition location_ok (v : json.Value) : bool :=
  match v with
  | json.JObject inner =>
      forallb (fun n => if json.names (fst n) "name"
                        then string_or_null (snd n) else true) inner
  | json.JNull => true
  | _ => false
  end.

(** Members of a weather answer none of which is "current", and whose
    "location" members are well typed. *)
Definition without_current (members : list (string * json.Value)) : bool :=
  forallb (fun m => negb (json.names (fst m) "current")
                    && (if json.names (fst m) "location"
                        then location_ok (snd m) else true)) members.

(** The bytes of a well-formed CEP: digits and hyphens. *)
Definition cep_byte (c : ascii) : bool := regexp.digit c || hyphen c.

(** A world with a credential in which both services answer 200 with
    an empty JSON object. *)
Definition blank : World :=
  {| Getenv := fun name => if String.eqb name "WEATHER_API_KEY" then "k3y" else "";
     Upstream := fun _ =>
       Responded {| StatusCode := 200; RespBody := BodyJSON (json.JObject []) |} |}.

(** The errors of decoding a JSON value (not of reading it) are type
    errors. *)
Definition type_error_or_none (e : option error) : Prop :=
  match e with
  | None | Some (UnmarshalTypeError _ _ _ _) => True
  | Some _ => False
  end.

(** Case analysis on the tag tests of a struct decoder. *)
Ltac tags :=
  repeat match goal with
         | |- context [json.names ?k ?tag] =>
             let E := fresh "E" in destruct (json.names k tag) eqn:E
         end.

(* ===================================================================== *)
(** * The CEP validator *)
(* ===================================================================== *)

Section Validator.

Import regexp.

Lemma matches_Void (s : string) : matches Void s = false.
Proof. induction s as [|c s IH]; [reflexivity | exact IH]. Qed.

Lemma matches_Alt (s : string) :
  forall a b, matches (Alt a b) s = matches a s || matches b s.
Proof.
  induction s as [|c s IH]; intros a b; simpl; [reflexivity | apply IH].
Qed.

Lemma matches_Cat_Void (r : re) (s : string) : matches (Cat Void r) s = false.
Proof. induction s as [|c s IH]; [reflexivity | exact IH]. Qed.

Lemma matches_Cat_Eps (r : re) (s : string) : matches (Cat Eps r) s = matches r s.
Proof.
  destruct s as [|c s]; simpl.
  - reflexivity.
  - now rewrite matches_Alt, matches_Cat_Void.
Qed.

Lemma matches_Eps (s : string) : matches Eps s = (String.length s =? 0)%nat.
Proof. destruct s; simpl; [reflexivity | apply matches_Void]. Qed.

(** [p{n}] matches the strings of [n] bytes, all in the class [p]. *)
Lemma matches_Repeat (p : ascii -> bool) (n : nat) :
  forall s, matches (Repeat n (Class p)) s
            = (String.length s =? n)%nat && all_bytes p s.
Proof.
  induction n as [|n IH]; intros s.
  - simpl Repeat. rewrite matches_Eps. destruct s; reflexivity.
  - destruct s as [|c s]; [reflexivity |].
    cbn [Repeat matches deriv nullable String.length all_bytes].
    destruct (p c).
    + rewrite matches_Cat_Eps, IH. reflexivity.
    + rewrite matches_Cat_Void. now rewrite andb_false_r.
Qed.

(** Replacing every ["-"] by nothing keeps the other bytes. *)
Lemma ReplaceAll_hyphen (s : string) :
  strings.ReplaceAll s "-" "" = filter_bytes (fun c => negb (hyphen c)) s.
Proof.
  unfold strings.ReplaceAll.
  induction s as [|c s IH]; [reflexivity |].
  cbn [strings.replace_from strings.HasPrefix filter_bytes String.length Nat.sub].
  unfold hyphen. rewrite andb_true_r.
  destruct (Ascii.eqb c "-"); cbn [negb]; [exact IH | now rewrite IH].
Qed.

Lemma digit_not_hyphen (c : ascii) : digit c = true -> hyphen c = false.
Proof.
  unfold digit, hyphen. intros H.
  destruct (Ascii.eqb_spec c "-") as [-> | _]; [discriminate H | reflexivity].
Qed.

Lemma all_bytes_filter (s : string) :
  all_bytes digit (filter_bytes (fun c => negb (hyphen c)) s)
  = all_bytes (fun c => digit c || hyphen c) s.
Proof.
  induction s as [|c s IH]; [reflexivity |].
  cbn [filter_bytes all_bytes].
  destruct (hyphen c) eqn:Hh; cbn [negb all_bytes].
  - now rewrite orb_true_r.
  - now rewrite orb_false_r, IH.
Qed.

Lemma length_filter (s : string) :
  all_bytes (fun c => digit c || hyphen c) s = true ->
  String.length (filter_bytes (fun c => negb (hyphen c)) s) = count_bytes digit s.
Proof.
  induction s as [|c s IH]; [reflexivity |].
  cbn [filter_bytes all_bytes count_bytes].
  intros [Hc Hs]%andb_true_iff. specialize (IH Hs).
  destruct (digit c) eqn:Hd.
  - rewrite (digit_not_hyphen c Hd). cbn [negb String.length]. now rewrite IH.
  - cbn [orb] in Hc. rewrite Hc. cbn [negb]. exact IH.
Qed.

End Validator.

(** C2, as the code has it.  [isValidCEP] removes every hyphen, not a
    single one: it accepts exactly the strings made of decimal digits and
    hyphens only that hold exactly eight digits, and rejects all others
    (empty, too short or long, letters, white space inside). *)
Theorem isValidCEP_accepts_iff (cep : string) :
  isValidCEP cep = true
  <-> all_bytes (fun c => regexp.digit c || hyphen c) cep = true
      /\ count_bytes regexp.digit cep = 8.
Proof.
  unfold isValidCEP, regexp.MatchString_anchored.
  rewrite ReplaceAll_hyphen, matches_Repeat, all_bytes_filter.
  rewrite andb_true_iff, Nat.eqb_eq. split.
  - intros [Hlen Hall]. split; [exact Hall |].
    now rewrite <- (length_filter cep Hall).
  - intros [Hall Hcount]. split; [| exact Hall].
    now rewrite (length_filter cep Hall).
Qed.

(** C2, counterexample: two separators among eight digits.  The code
    accepts the string; the validator as the specification words it
    (one separator removed, then eight digits) rejects it. *)
Lemma isValidCEP_two_separators :
  isValidCEP "01-310-100" = true /\ spec_isValidCEP "01-310-100" = false.
Proof. split; reflexivity. Qed.

(** The cases of the table in main_test.go. *)
Example isValidCEP_test_table :
  isValidCEP "01310100" = true /\ isValidCEP "01310-100" = true
  /\ isValidCEP "0131010" = false /\ isValidCEP "013101000" = false
  /\ isValidCEP "0131010a" = false /\ isValidCEP "" = false
  /\ isValidCEP "01310 100" = false.
Proof. repeat split; reflexivity. Qed.

(* ===================================================================== *)
(** * The temperature converter *)
(* ===================================================================== *)

(** C3.  The later revision adds 273.15 to the Celsius value, in
    binary64 arithmetic and with no further rounding step; the three
    sample points of the specification come out as the literals given
    there. *)
Theorem celsiusToKelvin_adds_273_15 :
  (forall c : float, V2.celsiusToKelvin c = (c + 273.15)%float)
  /\ V2.celsiusToKelvin 0 = 273.15%float
  /\ V2.celsiusToKelvin (-273.15) = 0%float
  /\ V2.celsiusToKelvin 25 = 298.15%float.
Proof. repeat split. Qed.

(** The earlier revision adds 273, which is what main_test.go expects. *)
Lemma V1_celsiusToKelvin_adds_273 :
  (forall c : float, V1.celsiusToKelvin c = (c + 273)%float)
  /\ V1.celsiusToKelvin 0 = 273%float
  /\ V1.celsiusToKelvin (-273) = 0%float
  /\ V1.celsiusToKelvin 25 = 298%float.
Proof. repeat split. Qed.

(** The sample points of the Fahrenheit conversion. *)
Example celsiusToFahrenheit_samples :
  celsiusToFahrenheit 0 = 32%float /\ celsiusToFahrenheit 100 = 212%float
  /\ celsiusToFahrenheit (-40) = (-40)%float /\ celsiusToFahrenheit 25 = 77%float.
Proof. repeat split. Qed.

(* ===================================================================== *)
(** * The weather resolver *)
(* ===================================================================== *)

(** The requests [getTemperature] issues: none without a key, else one. *)
Lemma getTemperature_requests (W : World) (location : string) (t : list string) :
  snd (V2.getTemperature W location t)
  = if String.eqb (Getenv W "WEATHER_API_KEY") "" then t
    else t ++ [WeatherAPI_url (Getenv W "WEATHER_API_KEY") location].
Proof.
  unfold V2.getTemperature, WeatherAPI_url.
  destruct (String.eqb (Getenv W "WEATHER_API_KEY") ""); [reflexivity |].
  unfold bind, http_Get.
  destruct (Upstream W _) as [msg | resp]; [reflexivity |].
  destruct (negb _); [reflexivity |].
  destruct (Decode_WeatherAPIResponse _) as [v [e|]]; reflexivity.
Qed.

(** C6.  Without a credential [getTemperature] returns the "not
    configured" error at once: the trace of outbound requests is the one
    it was entered with. *)
Theorem getTemperature_not_configured (W : World) (location : string) (t : list string) :
  Getenv W "WEATHER_API_KEY" = "" ->
  V2.getTemperature W location t
  = ((0%float, Some (errorString "weather API key not configured")), t).
Proof.
  intros Hkey. unfold V2.getTemperature.
  rewrite Hkey. cbn [String.eqb]. reflexivity.
Qed.

Lemma getTemperature_not_configured_witness :
  Getenv offline "WEATHER_API_KEY" = ""
  /\ V2.getTemperature offline "Curitiba,PR" []
     = ((0%float, Some (errorString "weather API key not configured")), []).
Proof.
  split; [reflexivity |].
  apply (getTemperature_not_configured offline "Curitiba,PR" []). reflexivity.
Defined.


Section QueryEscape.

Import url.

(** What one escaped byte consists of: never a comma, never a byte
    outside ASCII. *)
Lemma escape_byte_plain (c : ascii) :
  all_bytes (fun b => negb (Ascii.eqb b ",") && (nat_of_ascii b <? 128)%nat)
    (escape_byte c) = true.
Proof. destruct c as [[] [] [] [] [] [] [] []]; reflexivity. Qed.

Lemma all_bytes_app (p : ascii -> bool) (a b : string) :
  all_bytes p (a +:+ b) = all_bytes p a && all_bytes p b.
Proof.
  induction a as [|c a IH]; [reflexivity |].
  simpl. now rewrite IH, andb_assoc.
Qed.

Lemma QueryEscape_plain (s : string) :
  all_bytes (fun b => negb (Ascii.eqb b ",") && (nat_of_ascii b <? 128)%nat)
    (QueryEscape s) = true.
Proof.
  induction s as [|c s IH]; [reflexivity |].
  cbn [QueryEscape]. now rewrite all_bytes_app, escape_byte_plain, IH.
Qed.

Lemma QueryUnescape_escape_byte (c : ascii) (rest : string) :
  QueryUnescape (escape_byte c +:+ rest)
  = match QueryUnescape rest with
    | Some r => Some (String c r)
    | None => None
    end.
Proof.
  destruct c as [[] [] [] [] [] [] [] []];
    match goal with
    | |- context [escape_byte ?c] =>
        let e := eval vm_compute in (escape_byte c) in
        change (escape_byte c) with e
    end;
    simpl; unfold String.append; destruct (QueryUnescape rest); reflexivity.
Qed.

(** Escaping loses nothing: unescaping gives the location back. *)
Lemma QueryUnescape_QueryEscape (s : string) :
  QueryUnescape (QueryEscape s) = Some s.
Proof.
  induction s as [|c s IH]; [reflexivity |].
  cbn [QueryEscape]. now rewrite QueryUnescape_escape_byte, IH.
Qed.

End QueryEscape.

(** C8.  With a credential, [getTemperature] issues exactly one request,
    to the URL that carries the escaped location; the escaped text holds
    no comma and no byte outside ASCII, and unescaping it gives the
    location back. *)
Theorem getTemperature_escapes_location (W : World) (location : string) (t : list string) :
  Getenv W "WEATHER_API_KEY" <> "" ->
  snd (V2.getTemperature W location t)
  = t ++ [ "https://api.weatherapi.com/v1/current.json?key="
             +:+ Getenv W "WEATHER_API_KEY"
             +:+ "&q=" +:+ url.QueryEscape location +:+ "&aqi=no" ]
  /\ all_bytes (fun b => negb (Ascii.eqb b ",") && (nat_of_ascii b <? 128)%nat)
       (url.QueryEscape location) = true
  /\ url.QueryUnescape (url.QueryEscape location) = Some location.
Proof.
  intros Hkey. split; [| split].
  - rewrite getTemperature_requests.
    now destruct (String.eqb_spec (Getenv W "WEATHER_API_KEY") "").
  - apply QueryEscape_plain.
  - apply QueryUnescape_QueryEscape.
Qed.

Lemma getTemperature_escapes_location_witness :
  Getenv sunny "WEATHER_API_KEY" <> ""
  /\ snd (V2.getTemperature sunny (Sao_Paulo +:+ ",SP") [])
     = ["https://api.weatherapi.com/v1/current.json?key=k3y&q=S%C3%A3o+Paulo%2CSP&aqi=no"].
Proof.
  split; [discriminate |].
  exact (proj1 (getTemperature_escapes_location sunny (Sao_Paulo +:+ ",SP") []
                  ltac:(discriminate))).
Defined.

(** The earlier revision puts the location into the URL as it is. *)
Example V1_getTemperature_raw_location :
  snd (V1.getTemperature sunny "Curitiba,PR" [])
  = ["http://api.weatherapi.com/v1/current.json?key=k3y&q=Curitiba,PR&aqi=no"].
Proof. reflexivity. Qed.

(* ===================================================================== *)
(** * The request orchestrator *)
(* ===================================================================== *)

(** The postal resolver issues exactly one request, whatever comes back. *)
Lemma getLocationByCEP_one_request (W : World) (cep : string) (t : list string) :
  snd (V2.getLocationByCEP W cep t) = t ++ [ViaCEP_url cep].
Proof.
  unfold V2.getLocationByCEP, ViaCEP_url, bind, http_Get.
  destruct (Upstream W _) as [msg | resp]; [reflexivity |].
  destruct (negb _); [reflexivity |].
  destruct (V2.Decode_ViaCEPResponse _) as [v [e|]]; [reflexivity |].
  destruct (_ || _); reflexivity.
Qed.

(** The decision table of [weatherHandler] on a fresh response. *)
Lemma weatherHandler_table (W : World) (r : Request) (t : list string) :
  V2.weatherHandler W NewRecorder r t
  = if isValidCEP (cep_of r) then
      match fst (V2.getLocationByCEP W (cep_of r) t) with
      | (_, Some err) =>
          (if String.eqb (Error err) "CEP not found"
           then reply 404 (message "can not find zipcode")
           else reply 500 (message "internal server error"),
           t ++ [ViaCEP_url (cep_of r)])
      | (location, None) =>
          match V2.getTemperature W location (t ++ [ViaCEP_url (cep_of r)]) with
          | ((_, Some _), t') =>
              (reply 500 (message "error fetching weather data"), t')
          | ((tempC, None), t') =>
              (reply 200 (json.JObject
                            [("temp_C", json.JNumber tempC);
                             ("temp_F", json.JNumber (tempC * 1.8 + 32)%float);
                             ("temp_K", json.JNumber (tempC + 273.15)%float)]), t')
          end
      end
    else (reply 422 (message "invalid zipcode"), t).
Proof.
  unfold V2.weatherHandler. fold (cep_of r).
  destruct (isValidCEP (cep_of r)); [| reflexivity].
  cbn [negb]. unfold bind at 1.
  pose proof (getLocationByCEP_one_request W (cep_of r) t) as Htrace.
  destruct (V2.getLocationByCEP W (cep_of r) t) as [[location [err|]] t1];
    cbn [fst snd] in *; subst t1.
  - destruct (String.eqb (Error err) "CEP not found"); reflexivity.
  - unfold bind.
    destruct (V2.getTemperature W location _) as [[tempC [err|]] t2]; reflexivity.
Qed.




(** The same request in the earlier revision, which asks another URL
    (http scheme, location not escaped): temp_K is temp_C + 273. *)
Example V1_weatherHandler_kelvin :
  body (fst (V1.weatherHandler sunny NewRecorder (GET "/weather/01310-100") []))
  = [Document (json.JObject
                 [("temp_C", json.JNumber 25);
                  ("temp_F", json.JNumber 77);
                  ("temp_K", json.JNumber 298)])].
Proof. reflexivity. Qed.

(* ===================================================================== *)
(** * The postal resolver *)
(* ===================================================================== *)

Section Decoding.

Lemma fst_keep {A} (old : option error) (new : A * option error) :
  fst (keep old new) = fst new.
Proof. destruct old; reflexivity. Qed.

Lemma snd_keep_None {A} (new : A * option error) : snd (keep None new) = snd new.
Proof. reflexivity. Qed.

(** A key names one tag only. *)
Lemma names_inj (key a b : string) :
  json.names key a = true -> a <> b -> json.names key b = false.
Proof.
  unfold json.names. intros Ha%String.eqb_eq Hab. subst a.
  now apply String.eqb_neq.
Qed.

(** Members whose string fields are strings raise no decode error,
    whatever the type of "erro". *)
Lemma member_no_error (acc : V2.ViaCEPResponse * option error) (m : string * json.Value) :
  snd acc = None ->
  (if string_tag (fst m) then string_or_null (snd m) else true) = true ->
  snd (V2.ViaCEP_member acc m) = None.
Proof.
  destruct acc as [s e], m as [k v]. cbn [fst snd]. intros ->.
  unfold V2.ViaCEP_member, string_tag, into_string. cbn [fst snd].
  tags; cbn [orb]; intros Hv; try reflexivity;
    destruct v; try discriminate Hv; reflexivity.
Qed.

Lemma decode_no_error (members : list (string * json.Value)) :
  string_fields_ok members = true ->
  forall acc, snd acc = None ->
              snd (fold_left V2.ViaCEP_member members acc) = None.
Proof.
  induction members as [|m ms IH]; intros Hok acc Hacc; [exact Hacc |].
  cbn [string_fields_ok forallb] in Hok. apply andb_true_iff in Hok as [Hm Hms].
  cbn [fold_left]. apply (IH Hms). now apply member_no_error.
Qed.

(** What a member does to the fields [Erro] and [Localidade]. *)
Lemma member_sets_Erro acc key v :
  json.names key "erro" = true ->
  V2.Erro (fst (V2.ViaCEP_member acc (key, v))) = into_interface v.
Proof.
  intros H. unfold V2.ViaCEP_member. cbn [fst snd].
  rewrite (names_inj key "erro" "cep" H), (names_inj key "erro" "logradouro" H),
    (names_inj key "erro" "complemento" H), (names_inj key "erro" "bairro" H),
    (names_inj key "erro" "localidade" H), (names_inj key "erro" "uf" H), H
    by discriminate.
  now rewrite fst_keep.
Qed.

Lemma member_keeps_Erro acc m :
  json.names (fst m) "erro" = false ->
  V2.Erro (fst (V2.ViaCEP_member acc m)) = V2.Erro (fst acc).
Proof.
  intros H. unfold V2.ViaCEP_member. rewrite H.
  tags; try reflexivity;
    destruct (into_string _ _ _ _) as [x e]; now rewrite fst_keep.
Qed.

Lemma fold_keeps_Erro (after : list (string * json.Value)) :
  forallb (fun m => negb (json.names (fst m) "erro")) after = true ->
  forall acc, V2.Erro (fst (fold_left V2.ViaCEP_member after acc)) = V2.Erro (fst acc).
Proof.
  induction after as [|m ms IH]; intros H acc; [reflexivity |].
  cbn [forallb] in H. apply andb_true_iff in H as [Hm Hms].
  cbn [fold_left]. rewrite (IH Hms). apply member_keeps_Erro.
  now apply negb_true_iff.
Qed.

Lemma decode_finds_erro (members : list (string * json.Value)) :
  has_erro members ->
  V2.Erro (fst (fold_left V2.ViaCEP_member members (V2.zero, None))) <> None.
Proof.
  intros (before & key & v & after & -> & Hkey & Hv & Hafter).
  rewrite fold_left_app. cbn [fold_left].
  rewrite (fold_keeps_Erro after Hafter), (member_sets_Erro _ key v Hkey).
  destruct v; try discriminate Hv; discriminate.
Qed.

Lemma member_keeps_empty_city acc m :
  V2.Localidade (fst acc) = "" ->
  (if json.names (fst m) "localidade"
   then match snd m with json.JString s => String.eqb s "" | _ => true end
   else true) = true ->
  V2.Localidade (fst (V2.ViaCEP_member acc m)) = "".
Proof.
  destruct acc as [s e], m as [k v]. cbn [fst snd]. intros Hs.
  destruct (json.names k "localidade") eqn:Hk.
  - intros Hv. unfold V2.ViaCEP_member. cbn [fst snd].
    rewrite (names_inj k "localidade" "cep" Hk),
      (names_inj k "localidade" "logradouro" Hk),
      (names_inj k "localidade" "complemento" Hk),
      (names_inj k "localidade" "bairro" Hk), Hk by discriminate.
    unfold into_string.
    destruct v; rewrite fst_keep; cbn [fst V2.Localidade]; try exact Hs.
    now apply String.eqb_eq.
  - intros _. unfold V2.ViaCEP_member. cbn [fst snd]. rewrite Hk.
    tags; try exact Hs;
      try (destruct (into_string _ _ _ _) as [x e']); now rewrite fst_keep.
Qed.

Lemma decode_empty_city (members : list (string * json.Value)) :
  empty_city members = true ->
  forall acc, V2.Localidade (fst acc) = "" ->
              V2.Localidade (fst (fold_left V2.ViaCEP_member members acc)) = "".
Proof.
  induction members as [|m ms IH]; intros H acc Hacc; [exact Hacc |].
  cbn [empty_city forallb] in H. apply andb_true_iff in H as [Hm Hms].
  cbn [fold_left]. apply (IH Hms). now apply member_keeps_empty_city.
Qed.

Lemma member_type_error acc m :
  type_error_or_none (snd acc) -> type_error_or_none (snd (V2.ViaCEP_member acc m)).
Proof.
  destruct acc as [s e], m as [k v]. cbn [fst snd]. intros He.
  unfold V2.ViaCEP_member, into_string. cbn [fst snd].
  tags; try exact He; destruct v, e as [[]|]; cbn in *; tauto.
Qed.

Lemma decode_type_error (members : list (string * json.Value)) :
  forall acc, type_error_or_none (snd acc) ->
              type_error_or_none (snd (fold_left V2.ViaCEP_member members acc)).
Proof.
  induction members as [|m ms IH]; intros acc H; [exact H |].
  cbn [fold_left]. apply IH. now apply member_type_error.
Qed.

(** The text of a type error begins with "json:". *)
Lemma type_error_text (v s f ty : string) :
  String.eqb (Error (UnmarshalTypeError v s f ty)) "CEP not found" = false.
Proof. unfold Error. destruct (_ || _); reflexivity. Qed.

(** Apart from a decoder that fails with the very words "CEP not
    found", no decode error reads "CEP not found". *)
Lemma decode_error_text (b : Body) (e : error) :
  snd (V2.Decode_ViaCEPResponse b) = Some e ->
  b <> BodyBroken "CEP not found" ->
  String.eqb (Error e) "CEP not found" = false.
Proof.
  destruct b as [v | msg]; cbn [V2.Decode_ViaCEPResponse].
  - intros H _.
    assert (T : type_error_or_none (Some e)).
    { rewrite <- H. destruct v; cbn [snd]; try exact I.
      apply decode_type_error. exact I. }
    destruct e; try contradiction. apply type_error_text.
  - cbn [snd]. intros [= <-] Hmsg. cbn [Error].
    apply String.eqb_neq. congruence.
Qed.

End Decoding.

(** What [getLocationByCEP] returns for each kind of answer. *)
Lemma getLocationByCEP_unreachable (W : World) (cep msg : string) (t : list string) :
  Upstream W (ViaCEP_url cep) = Unreachable msg ->
  fst (V2.getLocationByCEP W cep t) = ("", Some (url_Error "Get" (ViaCEP_url cep) msg)).
Proof.
  intros H. unfold V2.getLocationByCEP, bind, http_Get.
  fold (ViaCEP_url cep). now rewrite H.
Qed.

Lemma getLocationByCEP_non_success (W : World) (cep : string) (resp : Response)
    (t : list string) :
  Upstream W (ViaCEP_url cep) = Responded resp ->
  StatusCode resp <> 200%Z ->
  fst (V2.getLocationByCEP W cep t) = ("", Some (errorString "CEP not found")).
Proof.
  intros H Hcode. unfold V2.getLocationByCEP, bind, http_Get.
  fold (ViaCEP_url cep). rewrite H.
  destruct (Z.eqb_spec (StatusCode resp) StatusOK) as [E | _]; [contradiction |].
  reflexivity.
Qed.

Lemma getLocationByCEP_undecodable (W : World) (cep : string) (resp : Response)
    (e : error) (t : list string) :
  Upstream W (ViaCEP_url cep) = Responded resp ->
  StatusCode resp = 200%Z ->
  snd (V2.Decode_ViaCEPResponse (RespBody resp)) = Some e ->
  fst (V2.getLocationByCEP W cep t) = ("", Some e).
Proof.
  intros H Hcode He. unfold V2.getLocationByCEP, bind, http_Get.
  fold (ViaCEP_url cep). rewrite H, Hcode.
  destruct (V2.Decode_ViaCEPResponse (RespBody resp)) as [v err].
  cbn [snd] in He. subst err. reflexivity.
Qed.

(** C5.  For a request that passed validation: a non-success status of
    the address service gives 404 "can not find zipcode"; an unreachable
    service gives 500 "internal server error"; so does a body that does
    not decode, as long as the decoder's own failure text is not the
    words "CEP not found", by which the handler recognises the
    not-found case. *)
Theorem postal_failures (W : World) (r : Request) (t : list string) :
  isValidCEP (cep_of r) = true ->
  (forall resp,
      Upstream W (ViaCEP_url (cep_of r)) = Responded resp ->
      StatusCode resp <> 200%Z ->
      V2.weatherHandler W NewRecorder r t
      = (reply 404 (message "can not find zipcode"), t ++ [ViaCEP_url (cep_of r)]))
  /\ (forall msg,
         Upstream W (ViaCEP_url (cep_of r)) = Unreachable msg ->
         V2.weatherHandler W NewRecorder r t
         = (reply 500 (message "internal server error"), t ++ [ViaCEP_url (cep_of r)]))
  /\ (forall resp e,
         Upstream W (ViaCEP_url (cep_of r)) = Responded resp ->
         StatusCode resp = 200%Z ->
         snd (V2.Decode_ViaCEPResponse (RespBody resp)) = Some e ->
         RespBody resp <> BodyBroken "CEP not found" ->
         V2.weatherHandler W NewRecorder r t
         = (reply 500 (message "internal server error"), t ++ [ViaCEP_url (cep_of r)])).
Proof.
  intros Hvalid. rewrite weatherHandler_table, Hvalid.
  split; [| split].
  - intros resp H Hcode.
    now rewrite (getLocationByCEP_non_success W _ resp t H Hcode).
  - intros msg H.
    now rewrite (getLocationByCEP_unreachable W _ msg t H).
  - intros resp e H Hcode He Hbody.
    rewrite (getLocationByCEP_undecodable W _ resp e t H Hcode He).
    now rewrite (decode_error_text _ e He Hbody).
Qed.

Lemma postal_failures_witness :
  isValidCEP (cep_of (GET "/weather/88888888")) = true
  /\ V2.weatherHandler sunny NewRecorder (GET "/weather/88888888") []
     = (reply 404 (message "can not find zipcode"),
        ["https://viacep.com.br/ws/88888888/json/"])
  /\ V2.weatherHandler sunny NewRecorder (GET "/weather/12345678") []
     = (reply 500 (message "internal server error"),
        ["https://viacep.com.br/ws/12345678/json/"])
  /\ V2.weatherHandler sunny NewRecorder (GET "/weather/77777777") []
     = (reply 500 (message "internal server error"),
        ["https://viacep.com.br/ws/77777777/json/"]).
Proof.
  split; [reflexivity |]. split; [| split].
  - apply (proj1 (postal_failures sunny (GET "/weather/88888888") [] eq_refl)
             {| StatusCode := 400; RespBody := BodyBroken "EOF" |});
      [reflexivity | discriminate].
  - apply (proj1 (proj2 (postal_failures sunny (GET "/weather/12345678") [] eq_refl))
             "dial tcp: i/o timeout"); reflexivity.
  - apply (proj2 (proj2 (postal_failures sunny (GET "/weather/77777777") [] eq_refl))
             {| StatusCode := 200; RespBody := BodyBroken "unexpected EOF" |}
             (DecodeError "unexpected EOF"));
      [reflexivity | reflexivity | reflexivity | discriminate].
Defined.

(** C4.  A 200 answer of the address service that is a JSON object with
    well-typed string fields and either an "erro" member, boolean or
    text, or no non-empty city, is decoded without error and resolved to
    "CEP not found"; the request ends in 404 "can not find zipcode". *)
Theorem not_found_indications (W : World) (r : Request) (t : list string)
    (members : list (string * json.Value)) :
  isValidCEP (cep_of r) = true ->
  Upstream W (ViaCEP_url (cep_of r))
  = Responded {| StatusCode := 200; RespBody := BodyJSON (json.JObject members) |} ->
  string_fields_ok members = true ->
  has_erro members \/ empty_city members = true ->
  snd (V2.Decode_ViaCEPResponse (BodyJSON (json.JObject members))) = None
  /\ fst (V2.getLocationByCEP W (cep_of r) t) = ("", Some (errorString "CEP not found"))
  /\ V2.weatherHandler W NewRecorder r t
     = (reply 404 (message "can not find zipcode"), t ++ [ViaCEP_url (cep_of r)]).
Proof.
  intros Hvalid Hup Hok Hind.
  assert (Herr : snd (V2.Decode_ViaCEPResponse (BodyJSON (json.JObject members))) = None).
  { cbn [V2.Decode_ViaCEPResponse]. now apply decode_no_error. }
  assert (Hloc : fst (V2.getLocationByCEP W (cep_of r) t)
                 = ("", Some (errorString "CEP not found"))).
  { unfold V2.getLocationByCEP, bind, http_Get.
    fold (ViaCEP_url (cep_of r)). rewrite Hup.
    cbn [StatusCode RespBody]. change (negb (200 =? StatusOK)%Z) with false. cbv iota.
    cbn [V2.Decode_ViaCEPResponse] in Herr |- *.
    destruct (fold_left V2.ViaCEP_member members (V2.zero, None)) as [v err] eqn:Hdec.
    cbn [snd] in Herr. subst err.
    assert (Hcond : bool_decide (V2.Erro v <> None) || String.eqb (V2.Localidade v) ""
                    = true).
    { destruct Hind as [Herro | Hcity].
      - apply orb_true_iff. left. apply bool_decide_eq_true_2.
        pose proof (decode_finds_erro members Herro) as H.
        now rewrite Hdec in H.
      - apply orb_true_iff. right. apply String.eqb_eq.
        pose proof (decode_empty_city members Hcity (V2.zero, None) eq_refl) as H.
        now rewrite Hdec in H. }
    now rewrite Hcond. }
  split; [exact Herr |]. split; [exact Hloc |].
  rewrite weatherHandler_table, Hvalid, Hloc. reflexivity.
Qed.

Lemma not_found_indications_witness :
  isValidCEP (cep_of (GET "/weather/99999999")) = true
  /\ V2.weatherHandler sunny NewRecorder (GET "/weather/99999999") []
     = (reply 404 (message "can not find zipcode"),
        ["https://viacep.com.br/ws/99999999/json/"]).
Proof.
  split; [reflexivity |].
  refine (proj2 (proj2 (not_found_indications sunny (GET "/weather/99999999") []
                          [("erro", json.JString "true")] eq_refl eq_refl eq_refl _))).
  left. exists [], "erro", (json.JString "true"), []. repeat split.
Defined.

(** In the earlier revision "erro" is a [bool] field: the text form is a
    decode error and the request ends in 500. *)
Example V1_erro_as_text :
  V1.weatherHandler sunny NewRecorder (GET "/weather/99999999") []
  = (reply 500 (message "internal server error"),
     ["https://viacep.com.br/ws/99999999/json/"]).
Proof. reflexivity. Qed.

(** The boolean form of "erro" and an empty city, on sample answers. *)
Example not_found_flag_and_empty_city :
  V2.weatherHandler sunny NewRecorder (GET "/weather/66666666") []
  = (reply 404 (message "can not find zipcode"),
     ["https://viacep.com.br/ws/66666666/json/"])
  /\ V2.weatherHandler sunny NewRecorder (GET "/weather/55555-555") []
     = (reply 404 (message "can not find zipcode"),
        ["https://viacep.com.br/ws/55555555/json/"]).
Proof. split; reflexivity. Qed.

(* ===================================================================== *)
(** * Routing and the health check *)
(* ===================================================================== *)

Section Routing.

Variables weather health : HandlerFunc.

Lemma append_slash_inj (a b : string) : a +:+ "/" = b +:+ "/" -> a = b.
Proof.
  revert b. induction a as [|c a IH]; intros [|d b] H; simpl in H.
  - reflexivity.
  - destruct b; discriminate H.
  - destruct a; discriminate H.
  - injection H as -> H. f_equal. now apply IH.
Qed.

Lemma HasPrefix_refl (s : string) : strings.HasPrefix s s = true.
Proof.
  induction s as [|c s IH]; [reflexivity |].
  cbn [strings.HasPrefix]. now rewrite Ascii.eqb_refl, IH.
Qed.

Lemma cleanPath_rooted (p : string) : strings.HasPrefix (http.cleanPath p) "/" = true.
Proof.
  unfold http.cleanPath, path.Clean.
  destruct (String.eqb p ""); [reflexivity |].
  destruct (_ && _); reflexivity.
Qed.

(** The handler the two routes select for a rooted path. *)
Lemma handler_two_routes (p : string) :
  strings.HasPrefix p "/" = true ->
  http.handler (two_routes weather health) p
  = if strings.HasPrefix p "/weather/" then weather else health.
Proof.
  intros Hp. unfold http.handler, http.exact, http.longest, two_routes, http.HandleFunc.
  cbn [app List.find fst snd fold_left].
  destruct (String.eqb_spec "/weather/" p) as [<- | _]; [reflexivity |].
  destruct (String.eqb_spec "/" p) as [<- | _]; [reflexivity |].
  cbn [fmap option_fmap option_map].
  change (http.ends_in_slash "/weather/") with true.
  change (http.ends_in_slash "/") with true.
  rewrite Hp. cbn [andb].
  destruct (strings.HasPrefix p "/weather/"); reflexivity.
Qed.

(** The only path redirected to its subtree root is "/weather". *)
Lemma shouldRedirect_two_routes (p : string) :
  strings.HasPrefix p "/" = true ->
  http.shouldRedirect (two_routes weather health) p = String.eqb p "/weather".
Proof.
  intros Hp. unfold http.shouldRedirect, http.exact, two_routes, http.HandleFunc.
  cbn [app List.find fst snd].
  destruct (String.eqb_spec "/weather/" p) as [<- | _]; [reflexivity |].
  destruct (String.eqb_spec "/" p) as [<- | _]; [reflexivity |].
  cbn [fmap option_fmap option_map].
  destruct (String.eqb_spec p "") as [-> | _]; [discriminate Hp |].
  destruct (String.eqb_spec "/weather/" (p +:+ "/")) as [E | N].
  - change "/weather/" with ("/weather" +:+ "/") in E.
    apply append_slash_inj in E. subst p. reflexivity.
  - destruct (String.eqb_spec "/" (p +:+ "/")) as [E | _].
    + change "/" with ("" +:+ "/") in E at 1.
      apply append_slash_inj in E. subst p. discriminate Hp.
    + cbn [fmap option_fmap option_map].
      destruct (String.eqb_spec p "/weather") as [-> | _]; [| reflexivity].
      now contradiction N.
Qed.

(** Routing of every request but CONNECT. *)
Lemma Handler_two_routes (r : Request) :
  Method r <> "CONNECT" ->
  http.Handler (two_routes weather health) r
  = let p := http.cleanPath (URL_Path r) in
    if String.eqb p "/weather"
    then http.RedirectHandler "/weather/" StatusMovedPermanently
    else if negb (String.eqb p (URL_Path r))
    then http.RedirectHandler p StatusMovedPermanently
    else if strings.HasPrefix p "/weather/" then weather else health.
Proof.
  intros Hm. unfold http.Handler.
  destruct (String.eqb_spec (Method r) "CONNECT") as [E | _]; [contradiction |].
  cbv zeta.
  rewrite (shouldRedirect_two_routes _ (cleanPath_rooted (URL_Path r))).
  destruct (String.eqb_spec (http.cleanPath (URL_Path r)) "/weather") as [-> | _];
    [reflexivity |].
  destruct (String.eqb_spec (http.cleanPath (URL_Path r)) (URL_Path r)) as [E | _];
    [| reflexivity].
  cbn [negb]. rewrite <- E at 1.
  rewrite (handler_two_routes _ (cleanPath_rooted (URL_Path r))).
  reflexivity.
Qed.

End Routing.

(** Every response of [weatherHandler] is sent with the JSON content type. *)
Lemma weatherHandler_content_type (W : World) (r : Request) (t : list string) :
  sent (fst (V2.weatherHandler W NewRecorder r t)) !! "Content-Type"
  = Some "application/json".
Proof.
  rewrite weatherHandler_table.
  destruct (isValidCEP (cep_of r)); [| reflexivity].
  destruct (fst (V2.getLocationByCEP W (cep_of r) t)) as [location [err|]].
  - destruct (String.eqb (Error err) "CEP not found"); reflexivity.
  - destruct (V2.getTemperature W location _) as [[tempC [err|]] t2]; reflexivity.
Qed.

(** C9, at the health check.  [healthHandler] writes the status and the
    JSON body but never sets the content type that [weatherHandler]
    sets: the response to [GET /] goes out with no Content-Type of the
    handler's (net/http then fills in the type it sniffs from the body,
    text/plain). *)
Theorem health_check_without_content_type (W : World) (t : list string) :
  V2.serve W NewRecorder (GET "/") t = (health_reply, t)
  /\ sent health_reply !! "Content-Type" = None
  /\ body health_reply = [Document (json.JObject [("status", json.JString "ok")])].
Proof. repeat split. Qed.




(** A path that is not in canonical form is redirected too, and a
    CONNECT request without a path is answered 404 by the multiplexer. *)
Example other_router_answers :
  status (fst (V2.serve offline NewRecorder (GET "/a//b") [])) = Some 301%Z
  /\ status (fst (V2.serve offline NewRecorder
                    {| Method := "CONNECT"; URL_Path := ""; RequestURI := "host:443" |} []))
     = Some 404%Z.
Proof. split; reflexivity. Qed.

(** No request but CONNECT reaches the multiplexer's own 404: it is
    redirected or handled by one of the two handlers. *)
Lemma router_without_not_found (W : World) (r : Request) :
  Method r <> "CONNECT" ->
  (exists target, http.Handler (V2.routes W) r
                  = http.RedirectHandler target StatusMovedPermanently)
  \/ http.Handler (V2.routes W) r = V2.weatherHandler W
  \/ http.Handler (V2.routes W) r = healthHandler.
Proof.
  intros Hm.
  change (V2.routes W) with (two_routes (V2.weatherHandler W) healthHandler).
  rewrite (Handler_two_routes _ _ r Hm). cbv zeta.
  destruct (String.eqb _ "/weather"); [left; eauto |].
  destruct (negb _); [left; eauto |].
  destruct (strings.HasPrefix _ _); auto.
Qed.

(* ===================================================================== *)
(** * Further properties: validator and postal resolver *)
(* ===================================================================== *)

Lemma filter_bytes_app (p : ascii -> bool) (a b : string) :
  filter_bytes p (a +:+ b) = filter_bytes p a +:+ filter_bytes p b.
Proof.
  induction a as [|c a IH]; [reflexivity |].
  simpl. destruct (p c); simpl; now rewrite IH.
Qed.

Lemma ReplaceAll_hyphen_insert (a b : string) :
  strings.ReplaceAll (a +:+ "-" +:+ b) "-" "" = strings.ReplaceAll (a +:+ b) "-" "".
Proof.
  rewrite !ReplaceAll_hyphen, !filter_bytes_app. reflexivity.
Qed.

(** X1.  A CEP the validator accepts is sent to ViaCEP as exactly eight
    decimal digits: the URL of the lookup is the fixed prefix, the eight
    digits and "/json/". *)
Theorem valid_cep_lookup_url (cep : string) :
  isValidCEP cep = true ->
  exists digits,
    ViaCEP_url cep = "https://viacep.com.br/ws/" +:+ digits +:+ "/json/"
    /\ String.length digits = 8
    /\ all_bytes regexp.digit digits = true.
Proof.
  unfold isValidCEP, regexp.MatchString_anchored, ViaCEP_url.
  rewrite matches_Repeat. intros [Hlen Hall]%andb_true_iff.
  exists (strings.ReplaceAll cep "-" ""). repeat split.
  - now apply Nat.eqb_eq.
  - exact Hall.
Qed.

Lemma valid_cep_lookup_url_witness :
  exists digits,
    ViaCEP_url "01310-100" = "https://viacep.com.br/ws/" +:+ digits +:+ "/json/"
    /\ String.length digits = 8
    /\ all_bytes regexp.digit digits = true.
Proof. apply (valid_cep_lookup_url "01310-100"). reflexivity. Defined.

(** X2.  A hyphen put anywhere into a CEP changes neither the verdict of
    the validator nor the lookup the postal resolver makes. *)
Theorem hyphen_is_ignored (W : World) (a b : string) (t : list string) :
  isValidCEP (a +:+ "-" +:+ b) = isValidCEP (a +:+ b)
  /\ V2.getLocationByCEP W (a +:+ "-" +:+ b) t = V2.getLocationByCEP W (a +:+ b) t.
Proof.
  split.
  - unfold isValidCEP. now rewrite ReplaceAll_hyphen_insert.
  - unfold V2.getLocationByCEP. now rewrite ReplaceAll_hyphen_insert.
Qed.

(** X3.  [getLocationByCEP] returns either an error with an empty
    location, or no error and a location "city,uf" whose city is not
    empty. *)
Theorem getLocationByCEP_result (W : World) (cep : string) (t : list string) :
  (exists err, fst (V2.getLocationByCEP W cep t) = ("", Some err))
  \/ (exists city uf,
         city <> ""
         /\ fst (V2.getLocationByCEP W cep t) = (city +:+ "," +:+ uf, None)).
Proof.
  unfold V2.getLocationByCEP, bind, http_Get.
  destruct (Upstream W _) as [msg | resp]; [left; eauto |].
  destruct (negb _); [left; eauto |].
  destruct (V2.Decode_ViaCEPResponse _) as [v [e|]]; [left; eauto |].
  destruct (bool_decide _); [left; eauto |].
  destruct (String.eqb_spec (V2.Localidade v) "") as [E | N]; [left; eauto |].
  right. exists (V2.Localidade v), (V2.UF v). split; [exact N | reflexivity].
Qed.

Section Fields.

Lemma member_Localidade acc m :
V2.Localidade (fst (V2.ViaCEP_member acc m))
= if json.names (fst m) "localidade"
  then match snd m with
       | json.JString s => s
       | _ => V2.Localidade (fst acc)
       end
  else V2.Localidade (fst acc).
Proof.
destruct acc as [s e], m as [k v]. cbn [fst snd].
destruct (json.names k "localidade") eqn:Hk.
- unfold V2.ViaCEP_member. cbn [fst snd].
  rewrite (names_inj k "localidade" "cep" Hk),
    (names_inj k "localidade" "logradouro" Hk),
    (names_inj k "localidade" "complemento" Hk),
    (names_inj k "localidade" "bairro" Hk), Hk by discriminate.
  unfold into_string. destruct v; now rewrite fst_keep.
- unfold V2.ViaCEP_member. cbn [fst snd]. rewrite Hk.
  tags; try reflexivity;
    try (destruct (into_string _ _ _ _) as [x e']); now rewrite fst_keep.
Qed.

Lemma member_UF acc m :
V2.UF (fst (V2.ViaCEP_member acc m))
= if json.names (fst m) "uf"
  then match snd m with
       | json.JString s => s
       | _ => V2.UF (fst acc)
       end
  else V2.UF (fst acc).
Proof.
destruct acc as [s e], m as [k v]. cbn [fst snd].
destruct (json.names k "uf") eqn:Hk.
- unfold V2.ViaCEP_member. cbn [fst snd].
  rewrite (names_inj k "uf" "cep" Hk), (names_inj k "uf" "logradouro" Hk),
    (names_inj k "uf" "complemento" Hk), (names_inj k "uf" "bairro" Hk),
    (names_inj k "uf" "localidade" Hk), Hk by discriminate.
  unfold into_string. destruct v; now rewrite fst_keep.
- unfold V2.ViaCEP_member. cbn [fst snd]. rewrite Hk.
  tags; try reflexivity;
    try (destruct (into_string _ _ _ _) as [x e']); now rewrite fst_keep.
Qed.

Lemma decode_Localidade (members : list (string * json.Value)) :
forall acc,
  V2.Localidade (fst (fold_left V2.ViaCEP_member members acc))
  = last_string "localidade" members (V2.Localidade (fst acc)).
Proof.
induction members as [|m ms IH]; intros acc; [reflexivity |].
unfold last_string in *. cbn [fold_left]. rewrite IH, member_Localidade.
reflexivity.
Qed.

Lemma decode_UF (members : list (string * json.Value)) :
forall acc,
  V2.UF (fst (fold_left V2.ViaCEP_member members acc))
  = last_string "uf" members (V2.UF (fst acc)).
Proof.
induction members as [|m ms IH]; intros acc; [reflexivity |].
unfold last_string in *. cbn [fold_left]. rewrite IH, member_UF.
reflexivity.
Qed.

Lemma decode_no_erro (members : list (string * json.Value)) :
no_erro members = true ->
forall acc, V2.Erro (fst acc) = None ->
            V2.Erro (fst (fold_left V2.ViaCEP_member members acc)) = None.
Proof.
induction members as [|m ms IH]; intros H acc Hacc; [exact Hacc |].
cbn [no_erro forallb] in H. apply andb_true_iff in H as [Hm Hms].
cbn [fold_left]. apply (IH Hms).
destruct (json.names (fst m) "erro") eqn:Hk.
- destruct m as [k v]. cbn [fst snd] in *.
  rewrite (member_sets_Erro acc k v Hk).
  destruct v; try discriminate Hm. reflexivity.
- now rewrite member_keeps_Erro.
Qed.

End Fields.

(** What the postal resolver returns for an answer that names a city. *)
Lemma getLocationByCEP_found (W : World) (cep : string) (t : list string)
    (members : list (string * json.Value)) :
  Upstream W (ViaCEP_url cep)
  = Responded {| StatusCode := 200; RespBody := BodyJSON (json.JObject members) |} ->
  string_fields_ok members = true ->
  no_erro members = true ->
  last_string "localidade" members "" <> "" ->
  fst (V2.getLocationByCEP W cep t)
  = (last_string "localidade" members "" +:+ "," +:+ last_string "uf" members "", None).
Proof.
  intros Hup Hok Hno Hcity.
  unfold V2.getLocationByCEP, bind, http_Get. fold (ViaCEP_url cep). rewrite Hup.
  cbn [StatusCode RespBody]. change (negb (200 =? StatusOK)%Z) with false. cbv iota.
  cbn [V2.Decode_ViaCEPResponse].
  pose proof (decode_no_error members Hok (V2.zero, None) eq_refl) as Herr.
  pose proof (decode_no_erro members Hno (V2.zero, None) eq_refl) as Herro.
  pose proof (decode_Localidade members (V2.zero, None)) as Hloc.
  pose proof (decode_UF members (V2.zero, None)) as Huf.
  destruct (fold_left V2.ViaCEP_member members (V2.zero, None)) as [v err].
  cbn [fst snd V2.zero V2.Localidade V2.UF] in *. subst err.
  rewrite Herro, Hloc, Huf.
  destruct (String.eqb_spec (last_string "localidade" members "") "") as [E | _];
    [contradiction |].
  reflexivity.
Qed.

(** X4.  A 200 answer of ViaCEP that is an object with well-typed
    string fields, no "erro" other than [null] and a non-empty city is
    resolved, with one request, to "city,uf": the strings of the last
    members "localidade" and "uf" (keys in any letter case; "uf" may be
    missing, which gives an empty state). *)
Theorem getLocationByCEP_resolves (W : World) (cep : string) (t : list string)
    (members : list (string * json.Value)) :
  Upstream W (ViaCEP_url cep)
  = Responded {| StatusCode := 200; RespBody := BodyJSON (json.JObject members) |} ->
  string_fields_ok members = true ->
  no_erro members = true ->
  last_string "localidade" members "" <> "" ->
  V2.getLocationByCEP W cep t
  = ((last_string "localidade" members "" +:+ "," +:+ last_string "uf" members "", None),
     t ++ [ViaCEP_url cep]).
Proof.
  intros Hup Hok Hno Hcity.
  pose proof (getLocationByCEP_found W cep t members Hup Hok Hno Hcity) as Hfst.
  pose proof (getLocationByCEP_one_request W cep t) as Hsnd.
  destruct (V2.getLocationByCEP W cep t) as [res t1].
  cbn [fst snd] in *. now subst.
Qed.

Lemma getLocationByCEP_resolves_witness :
  V2.getLocationByCEP sunny "01310-100" []
  = ((Sao_Paulo +:+ ",SP", None), ["https://viacep.com.br/ws/01310100/json/"]).
Proof.
  refine (getLocationByCEP_resolves sunny "01310-100" []
            [("cep", json.JString "01310-100");
             ("localidade", json.JString Sao_Paulo);
             ("uf", json.JString "SP")] eq_refl eq_refl eq_refl _).
  discriminate.
Defined.

(* ===================================================================== *)
(** * Further properties: weather resolver and orchestrator *)
(* ===================================================================== *)




(** X7.  Without a credential no request is ever answered 200 and the
    weather service is never contacted: the only request that can go
    out is the ViaCEP lookup. *)
Theorem no_credential_no_success (W : World) (r : Request) (t : list string) :
  Getenv W "WEATHER_API_KEY" = "" ->
  status (fst (V2.weatherHandler W NewRecorder r t)) <> Some 200%Z
  /\ (snd (V2.weatherHandler W NewRecorder r t) = t
      \/ snd (V2.weatherHandler W NewRecorder r t) = t ++ [ViaCEP_url (cep_of r)]).
Proof.
  intros Hkey. rewrite weatherHandler_table.
  destruct (isValidCEP (cep_of r)); [| split; [discriminate | now left]].
  destruct (fst (V2.getLocationByCEP W (cep_of r) t)) as [location [err|]].
  - split; [| now right].
    destruct (String.eqb (Error err) "CEP not found"); discriminate.
  - unfold V2.getTemperature. rewrite Hkey. cbn [String.eqb ret fst snd].
    split; [discriminate | now right].
Qed.

Lemma no_credential_no_success_witness :
  status (fst (V2.weatherHandler offline NewRecorder (GET "/weather/01310100") []))
  <> Some 200%Z.
Proof.
  exact (proj1 (no_credential_no_success offline (GET "/weather/01310100") [] eq_refl)).
Defined.

(** X8.  The three upstream failures of [getTemperature], with a
    credential configured: an unreachable service, a status other than
    200 and a body that does not decode each give the temperature 0 and
    an error of their own, whose text carries the cause. *)
Theorem getTemperature_failures (W : World) (location : string) (t : list string) :
  Getenv W "WEATHER_API_KEY" <> "" ->
  let u := WeatherAPI_url (Getenv W "WEATHER_API_KEY") location in
  (forall msg,
      Upstream W u = Unreachable msg ->
      fst (V2.getTemperature W location t)
      = (0%float, Some (errorString ("failed to connect to weather API: "
                                       +:+ Error (url_Error "Get" u msg)))))
  /\ (forall resp,
         Upstream W u = Responded resp ->
         StatusCode resp <> 200%Z ->
         fst (V2.getTemperature W location t)
         = (0%float, Some (errorString ("weather API error: status "
                                          +:+ itoa (StatusCode resp)))))
  /\ (forall resp e,
         Upstream W u = Responded resp ->
         StatusCode resp = 200%Z ->
         snd (Decode_WeatherAPIResponse (RespBody resp)) = Some e ->
         fst (V2.getTemperature W location t)
         = (0%float, Some (errorString ("failed to parse weather data: " +:+ Error e)))).
Proof.
  intros Hkey. cbv zeta. unfold V2.getTemperature.
  destruct (String.eqb_spec (Getenv W "WEATHER_API_KEY") "") as [E | _];
    [contradiction |].
  fold (WeatherAPI_url (Getenv W "WEATHER_API_KEY") location).
  unfold bind, http_Get. split; [| split].
  - intros msg H. now rewrite H.
  - intros resp H Hcode. rewrite H.
    destruct (Z.eqb_spec (StatusCode resp) StatusOK) as [E | _]; [contradiction |].
    reflexivity.
  - intros resp e H Hcode He. rewrite H, Hcode.
    destruct (Decode_WeatherAPIResponse (RespBody resp)) as [v err].
    cbn [snd] in He. subst err. reflexivity.
Qed.

Lemma getTemperature_failures_witness :
  fst (V2.getTemperature
         {| Getenv := fun _ => "k3y";
            Upstream := fun _ => Responded {| StatusCode := 403;
                                              RespBody := BodyBroken "EOF" |} |}
         "Curitiba,PR" [])
  = (0%float, Some (errorString "weather API error: status 403")).
Proof.
  refine (proj1 (proj2 (getTemperature_failures
                          {| Getenv := fun _ => "k3y";
                             Upstream := fun _ =>
                               Responded {| StatusCode := 403;
                                            RespBody := BodyBroken "EOF" |} |}
                          "Curitiba,PR" [] _)) _ eq_refl _); discriminate.
Defined.

Section WeatherDecoding.

Lemma decode_Location_ok (inner : list (string * json.Value)) :
forallb (fun n => if json.names (fst n) "name"
                  then string_or_null (snd n) else true) inner = true ->
forall acc, snd acc = None ->
            snd (fold_left
                   (fun (acc : string * option error) (m : string * json.Value) =>
                      if json.names (fst m) "name"
                      then keep (snd acc)
                             (into_string "WeatherAPIResponse" "location.name"
                                (snd m) (fst acc))
                      else acc) inner acc) = None.
Proof.
induction inner as [|n ns IH]; intros H acc Hacc; [exact Hacc |].
cbn [forallb] in H. apply andb_true_iff in H as [Hn Hns].
cbn [fold_left]. apply (IH Hns).
destruct (json.names (fst n) "name"); [| exact Hacc].
rewrite Hacc. destruct (snd n); try discriminate Hn; reflexivity.
Qed.

(** Members other than "current" raise no error and leave the
  temperature as it is. *)
Lemma member_without_current acc m :
snd acc = None ->
negb (json.names (fst m) "current")
&& (if json.names (fst m) "location" then location_ok (snd m) else true) = true ->
snd (WeatherAPI_member acc m) = None
/\ Current_TempC (fst (WeatherAPI_member acc m)) = Current_TempC (fst acc).
Proof.
destruct acc as [s e], m as [k v]. cbn [fst snd]. intros -> H.
apply andb_true_iff in H as [Hc Hl]. apply negb_true_iff in Hc.
unfold WeatherAPI_member. cbn [fst snd]. rewrite Hc.
destruct (json.names k "location"); [| now split].
destruct v as [| | | | | inner]; try discriminate Hl; [now split |].
pose proof (decode_Location_ok inner Hl (Location_Name s, None) eq_refl) as He.
unfold decode_Location.
destruct (fold_left _ inner (Location_Name s, None)) as [n e].
cbn [snd] in He. subst e. now split.
Qed.

Lemma decode_without_current (members : list (string * json.Value)) :
without_current members = true ->
forall acc,
  snd acc = None ->
  snd (fold_left WeatherAPI_member members acc) = None
  /\ Current_TempC (fst (fold_left WeatherAPI_member members acc))
     = Current_TempC (fst acc).
Proof.
induction members as [|m ms IH]; intros H acc Hacc; [now split |].
cbn [without_current forallb] in H. apply andb_true_iff in H as [Hm Hms].
destruct (member_without_current acc m Hacc Hm) as [He Ht].
cbn [fold_left]. destruct (IH Hms _ He) as [He' Ht'].
split; [exact He' | now rewrite Ht'].
Qed.

End WeatherDecoding.

(** X9.  A 200 answer of the weather service that is an object without
    a member "current", the empty object included, is no error:
    [getTemperature] returns 0 degrees. *)
Theorem getTemperature_defaults_to_zero (W : World) (location : string)
    (t : list string) (members : list (string * json.Value)) :
  Getenv W "WEATHER_API_KEY" <> "" ->
  Upstream W (WeatherAPI_url (Getenv W "WEATHER_API_KEY") location)
  = Responded {| StatusCode := 200; RespBody := BodyJSON (json.JObject members) |} ->
  without_current members = true ->
  fst (V2.getTemperature W location t) = (0%float, None).
Proof.
  intros Hkey Hup Hlack. unfold V2.getTemperature.
  destruct (String.eqb_spec (Getenv W "WEATHER_API_KEY") "") as [E | _];
    [contradiction |].
  fold (WeatherAPI_url (Getenv W "WEATHER_API_KEY") location).
  unfold bind, http_Get. rewrite Hup.
  cbn [StatusCode RespBody Decode_WeatherAPIResponse].
  change (negb (200 =? StatusOK)%Z) with false. cbv iota.
  destruct (decode_without_current members Hlack
              ({| Location_Name := ""; Current_TempC := 0 |}, None) eq_refl)
    as [He Ht].
  destruct (fold_left WeatherAPI_member members _) as [v err].
  cbn [fst snd Current_TempC] in *. subst err. now rewrite Ht.
Qed.

Lemma getTemperature_defaults_to_zero_witness :
  fst (V2.getTemperature blank "Curitiba,PR" []) = (0%float, None).
Proof.
  refine (getTemperature_defaults_to_zero blank "Curitiba,PR" [] [] _ eq_refl eq_refl).
  discriminate.
Defined.



(* ===================================================================== *)
(** * Further properties: routing of the weather subtree *)
(* ===================================================================== *)

Section Bytes.

Lemma all_bytes_Forall (p : ascii -> bool) (s : string) :
all_bytes p s = true -> Forall (fun c => p c = true) (list_ascii_of_string s).
Proof.
induction s as [|c s IH]; cbn [all_bytes list_ascii_of_string]; [constructor |].
intros [Hc Hs]%andb_true_iff. constructor; auto.
Qed.

Lemma list_ascii_of_string_app (a b : string) :
list_ascii_of_string (a +:+ b) = list_ascii_of_string a ++ list_ascii_of_string b.
Proof. induction a as [|c a IH]; [reflexivity |]. simpl. now rewrite IH. Qed.

(** What the bytes of a CEP are not. *)
Lemma cep_byte_plain (a : ascii) :
cep_byte a = true ->
strings.asciiSpace a = false
/\ Ascii.eqb a "/" = false
/\ (forall b, strings.space2 a b = false)
/\ (forall b c, strings.space3 a b c = false)
/\ (forall b, strings.space2 b a = false)
/\ (forall b c, strings.space3 c b a = false).
Proof.
destruct a as [[] [] [] [] [] [] [] []]; intros H; try discriminate H;
  (split; [reflexivity |]; split; [reflexivity |];
   split; [reflexivity |]; split; [reflexivity |]; split;
   [ intros b; unfold strings.space2; cbn; now rewrite andb_false_r
   | intros b c; unfold strings.space3; cbn;
     repeat (rewrite ?andb_false_r; cbn [andb orb]); reflexivity ]).
Qed.

Lemma no_leading_space (l : list ascii) :
Forall (fun c => cep_byte c = true) l -> strings.leading_space l = 0.
Proof.
intros H. destruct H as [|a rest Ha _]; [reflexivity |].
destruct (cep_byte_plain a Ha) as (H1 & _ & H2 & H3 & _).
unfold strings.leading_space. rewrite H1.
destruct rest as [|b [|c rest]]; rewrite ?H2, ?H3; reflexivity.
Qed.

Lemma no_trailing_space (l : list ascii) :
Forall (fun c => cep_byte c = true) l -> strings.trailing_space l = 0.
Proof.
intros H. destruct H as [|a rest Ha _]; [reflexivity |].
destruct (cep_byte_plain a Ha) as (H1 & _ & _ & _ & H2 & H3).
unfold strings.trailing_space. rewrite H1.
destruct rest as [|b [|c rest]]; rewrite ?H2, ?H3; reflexivity.
Qed.

Lemma trim_with_nothing (width : list ascii -> nat) (fuel : nat) (l : list ascii) :
width l = 0 -> strings.trim_with width fuel l = l.
Proof. intros H. destruct fuel; cbn [strings.trim_with]; [| rewrite H]; reflexivity. Qed.

(** [TrimSpace] leaves a string of digits and hyphens as it is. *)
Lemma TrimSpace_cep (s : string) :
all_bytes cep_byte s = true -> strings.TrimSpace s = s.
Proof.
intros H%all_bytes_Forall. unfold strings.TrimSpace. cbv zeta.
rewrite (trim_with_nothing _ _ _ (no_leading_space _ H)).
rewrite (trim_with_nothing _ _ _ (no_trailing_space _ (Forall_rev H))).
now rewrite rev_involutive, string_of_list_ascii_of_string.
Qed.

Lemma elements_plain (s : string) :
all_bytes (fun c => negb (Ascii.eqb c "/")) s = true -> path.elements s = [s].
Proof.
induction s as [|c s IH]; [reflexivity |].
cbn [all_bytes path.elements]. intros [Hc Hs]%andb_true_iff.
apply negb_true_iff in Hc. rewrite Hc, (IH Hs). reflexivity.
Qed.

Lemma ends_in_slash_plain (a s : string) :
s <> "" ->
all_bytes (fun c => negb (Ascii.eqb c "/")) s = true ->
http.ends_in_slash (a +:+ s) = false.
Proof.
intros Hne H%all_bytes_Forall. unfold http.ends_in_slash.
rewrite list_ascii_of_string_app, rev_app_distr.
apply Forall_rev in H.
destruct (rev (list_ascii_of_string s)) as [|c l] eqn:E.
- apply (f_equal (@rev ascii)) in E. rewrite rev_involutive in E. cbn in E.
  apply (f_equal string_of_list_ascii) in E.
  rewrite string_of_list_ascii_of_string in E. contradiction.
- cbn [app]. inversion H as [|? ? Hc _]; subst. now apply negb_true_iff.
Qed.

(** A path of the weather subtree with one plain element is in
  canonical form. *)
Lemma cleanPath_weather (seg : string) :
all_bytes (fun c => negb (Ascii.eqb c "/")) seg = true ->
seg <> "" -> seg <> "." -> seg <> ".." ->
http.cleanPath ("/weather/" +:+ seg) = "/weather/" +:+ seg.
Proof.
intros Hplain H0 H1 H2.
assert (Hclean : path.Clean ("/weather/" +:+ seg) = "/weather/" +:+ seg).
{ unfold path.Clean.
  change (path.elements ("/weather/" +:+ seg))
    with ("" :: "weather" :: path.elements seg).
  rewrite (elements_plain seg Hplain). cbn [fold_left].
  change (path.step (path.step [] "") "weather") with ["weather"].
  unfold path.step.
  apply String.eqb_neq in H0, H1, H2. rewrite H0, H1, H2. reflexivity. }
unfold http.cleanPath.
change (String.eqb ("/weather/" +:+ seg) "") with false.
change (strings.HasPrefix ("/weather/" +:+ seg) "/") with true. cbv iota.
rewrite Hclean, (ends_in_slash_plain "/weather/" seg H0 Hplain). reflexivity.
Qed.

Lemma all_bytes_impl (p q : ascii -> bool) (s : string) :
(forall c, p c = true -> q c = true) ->
all_bytes p s = true -> all_bytes q s = true.
Proof.
intros Hpq. induction s as [|c s IH]; [reflexivity |].
cbn [all_bytes]. intros [Hc Hs]%andb_true_iff.
now rewrite (Hpq c Hc), (IH Hs).
Qed.

(** A CEP the validator accepts is made of CEP bytes and is none of the
  elements a path loses when it is cleaned. *)
Lemma valid_cep_bytes (cep : string) :
isValidCEP cep = true ->
all_bytes cep_byte cep = true /\ cep <> "" /\ cep <> "." /\ cep <> "..".
Proof.
intros H. unfold isValidCEP, regexp.MatchString_anchored in H.
rewrite ReplaceAll_hyphen, matches_Repeat, all_bytes_filter in H.
apply andb_true_iff in H as [Hlen Hall]. split; [exact Hall |].
repeat split; intros ->; discriminate.
Qed.

End Bytes.

(** X11.  A request other than CONNECT whose path is in canonical form
    and lies under "/weather/" is handled by [weatherHandler], whatever
    its method. *)
Theorem weather_routes_reach_weatherHandler (W : World) (r : Request)
    (w : ResponseWriter) (t : list string) :
  Method r <> "CONNECT" ->
  RequestURI r <> "*" ->
  http.cleanPath (URL_Path r) = URL_Path r ->
  strings.HasPrefix (URL_Path r) "/weather/" = true ->
  V2.serve W w r t = V2.weatherHandler W w r t.
Proof.
  intros Hm Huri Hclean Hprefix.
  unfold V2.serve, http.ServeHTTP.
  destruct (String.eqb_spec (RequestURI r) "*") as [E | _]; [contradiction |].
  change (V2.routes W) with (two_routes (V2.weatherHandler W) healthHandler).
  rewrite (Handler_two_routes _ _ r Hm). cbv zeta. rewrite Hclean.
  destruct (String.eqb_spec (URL_Path r) "/weather") as [E | _].
  - rewrite E in Hprefix. discriminate Hprefix.
  - now rewrite String.eqb_refl, Hprefix.
Qed.

Lemma weather_routes_reach_weatherHandler_witness :
  V2.serve sunny NewRecorder
    {| Method := "POST"; URL_Path := "/weather/abc/def"; RequestURI := "/weather/abc/def" |}
    []
  = V2.weatherHandler sunny NewRecorder
      {| Method := "POST"; URL_Path := "/weather/abc/def";
         RequestURI := "/weather/abc/def" |} [].
Proof.
  refine (weather_routes_reach_weatherHandler sunny
            {| Method := "POST"; URL_Path := "/weather/abc/def";
               RequestURI := "/weather/abc/def" |} NewRecorder [] _ _ eq_refl eq_refl);
    discriminate.
Defined.

(** X12.  A request for "/weather/" followed by a CEP the validator
    accepts goes through the multiplexer unchanged (no redirect), and
    [weatherHandler] reads exactly that CEP from it: the first request
    that goes out is the ViaCEP lookup of the CEP. *)
Theorem valid_cep_request (W : World) (method uri cep : string) (t : list string) :
  method <> "CONNECT" ->
  uri <> "*" ->
  isValidCEP cep = true ->
  let r := {| Method := method; URL_Path := "/weather/" +:+ cep; RequestURI := uri |} in
  cep_of r = cep
  /\ V2.serve W NewRecorder r t = V2.weatherHandler W NewRecorder r t
  /\ exists rest, snd (V2.serve W NewRecorder r t) = t ++ ViaCEP_url cep :: rest.
Proof.
  intros Hm Huri Hvalid r.
  destruct (valid_cep_bytes cep Hvalid) as (Hbytes & H0 & H1 & H2).
  assert (Hcep : cep_of r = cep).
  { unfold cep_of, r. cbn [URL_Path].
    change (strings.TrimPrefix ("/weather/" +:+ cep) "/weather/") with cep.
    now apply TrimSpace_cep. }
  assert (Hplain : all_bytes (fun c => negb (Ascii.eqb c "/")) cep = true).
  { apply (all_bytes_impl cep_byte); [| exact Hbytes].
    intros c Hc. destruct (cep_byte_plain c Hc) as (_ & H & _). now rewrite H. }
  assert (Hserve : V2.serve W NewRecorder r t = V2.weatherHandler W NewRecorder r t).
  { unfold V2.serve, http.ServeHTTP. cbn [RequestURI r].
    destruct (String.eqb_spec uri "*") as [E | _]; [contradiction |].
    change (V2.routes W) with (two_routes (V2.weatherHandler W) healthHandler).
    rewrite (Handler_two_routes _ _ r Hm). cbv zeta. cbn [URL_Path r].
    rewrite (cleanPath_weather cep Hplain H0 H1 H2).
    change (String.eqb ("/weather/" +:+ cep) "/weather") with false.
    rewrite String.eqb_refl.
    change (strings.HasPrefix ("/weather/" +:+ cep) "/weather/") with true.
    reflexivity. }
  split; [exact Hcep |]. split; [exact Hserve |].
  rewrite Hserve, weatherHandler_table, Hcep, Hvalid.
  destruct (fst (V2.getLocationByCEP W cep t)) as [location [err|]].
  - now exists [].
  - pose proof (getTemperature_requests W location (t ++ [ViaCEP_url cep])) as H.
    destruct (V2.getTemperature W location _) as [[tempC err] t2]. cbn [snd] in H.
    destruct (String.eqb (Getenv W "WEATHER_API_KEY") "").
    + exists []. destruct err; cbn [snd]; exact H.
    + exists [WeatherAPI_url (Getenv W "WEATHER_API_KEY") location].
      destruct err; cbn [snd]; rewrite H; now rewrite <- app_assoc.
Qed.

Lemma valid_cep_request_witness :
  cep_of {| Method := "GET"; URL_Path := "/weather/" +:+ "01310-100";
            RequestURI := "/weather/01310-100" |} = "01310-100".
Proof.
  refine (proj1 (valid_cep_request offline "GET" "/weather/01310-100" "01310-100" []
                   _ _ eq_refl)); discriminate.
Defined.

Section AnyRequest.

Variable W : World.



End AnyRequest.


(* ===================================================================== *)
(** * Further properties: the earlier revision *)
(* ===================================================================== *)

Section Earlier.

Lemma V1_getLocationByCEP_one_request (W : World) (cep : string) (t : list string) :
snd (V1.getLocationByCEP W cep t) = t ++ [ViaCEP_url cep].
Proof.
unfold V1.getLocationByCEP, ViaCEP_url, bind, http_Get.
destruct (Upstream W _) as [msg | resp]; [reflexivity |].
destruct (negb _); [reflexivity |].
destruct (V1.Decode_ViaCEPResponse _) as [v [e|]]; [reflexivity |].
destruct (V1.Erro v); reflexivity.
Qed.

(** The decision table of the earlier [weatherHandler]. *)
Lemma V1_weatherHandler_table (W : World) (r : Request) (t : list string) :
V1.weatherHandler W NewRecorder r t
= if isValidCEP (cep_of r) then
    match fst (V1.getLocationByCEP W (cep_of r) t) with
    | (_, Some err) =>
        (if String.eqb (Error err) "CEP not found"
         then reply 404 (message "can not find zipcode")
         else reply 500 (message "internal server error"),
         t ++ [ViaCEP_url (cep_of r)])
    | (location, None) =>
        match V1.getTemperature W location (t ++ [ViaCEP_url (cep_of r)]) with
        | ((_, Some _), t') =>
            (reply 500 (message "error fetching weather data"), t')
        | ((tempC, None), t') =>
            (reply 200 (json.JObject
                          [("temp_C", json.JNumber tempC);
                           ("temp_F", json.JNumber (tempC * 1.8 + 32)%float);
                           ("temp_K", json.JNumber (tempC + 273)%float)]), t')
        end
    end
  else (reply 422 (message "invalid zipcode"), t).
Proof.
unfold V1.weatherHandler. fold (cep_of r).
destruct (isValidCEP (cep_of r)); [| reflexivity].
cbn [negb]. unfold bind at 1.
pose proof (V1_getLocationByCEP_one_request W (cep_of r) t) as Htrace.
destruct (V1.getLocationByCEP W (cep_of r) t) as [[location [err|]] t1];
  cbn [fst snd] in *; subst t1.
- destruct (String.eqb (Error err) "CEP not found"); reflexivity.
- unfold bind.
  destruct (V1.getTemperature W location _) as [[tempC [err|]] t2]; reflexivity.
Qed.

Lemma V1_member_type_error acc m :
type_error_or_none (snd acc) -> type_error_or_none (snd (V1.ViaCEP_member acc m)).
Proof.
destruct acc as [s e], m as [k v]. cbn [fst snd]. intros He.
unfold V1.ViaCEP_member, into_string, into_bool. cbn [fst snd].
tags; try exact He; destruct v, e as [[]|]; cbn in *; tauto.
Qed.

Lemma V1_decode_type_error (members : list (string * json.Value)) :
forall acc, type_error_or_none (snd acc) ->
            type_error_or_none (snd (fold_left V1.ViaCEP_member members acc)).
Proof.
induction members as [|m ms IH]; intros acc H; [exact H |].
cbn [fold_left]. apply IH. now apply V1_member_type_error.
Qed.

(** The first decode error is kept. *)
Lemma V1_member_keeps_error acc m :
is_Some (snd acc) -> is_Some (snd (V1.ViaCEP_member acc m)).
Proof.
destruct acc as [s e], m as [k v]. cbn [fst snd]. intros [e0 ->].
unfold V1.ViaCEP_member. cbn [fst snd].
tags; try (now eexists);
  try (destruct (into_string _ _ _ _) as [x e']);
  try (destruct (into_bool _ _ _ _) as [x e']); now eexists.
Qed.

Lemma V1_decode_keeps_error (members : list (string * json.Value)) :
forall acc, is_Some (snd acc) ->
            is_Some (snd (fold_left V1.ViaCEP_member members acc)).
Proof.
induction members as [|m ms IH]; intros acc H; [exact H |].
cbn [fold_left]. apply IH. now apply V1_member_keeps_error.
Qed.

(** A member "erro" that is a text is a decode error for a [bool] field. *)
Lemma V1_member_erro_text acc key s :
json.names key "erro" = true ->
is_Some (snd (V1.ViaCEP_member acc (key, json.JString s))).
Proof.
intros H. destruct acc as [v e]. unfold V1.ViaCEP_member. cbn [fst snd].
rewrite (names_inj key "erro" "cep" H), (names_inj key "erro" "logradouro" H),
  (names_inj key "erro" "complemento" H), (names_inj key "erro" "bairro" H),
  (names_inj key "erro" "localidade" H), (names_inj key "erro" "uf" H), H
  by discriminate.
unfold into_bool. destruct e; now eexists.
Qed.

End Earlier.

(** X14.  In the earlier revision, where "erro" is a [bool] field, a 200
    answer of ViaCEP with a member "erro" that is a text is a decode
    error, wherever the member stands: a well-formed CEP gets 500
    "internal server error", not 404. *)
Theorem V1_erro_text_is_server_error (W : World) (r : Request) (t : list string)
    (before after : list (string * json.Value)) (key text : string) :
  isValidCEP (cep_of r) = true ->
  Upstream W (ViaCEP_url (cep_of r))
  = Responded {| StatusCode := 200;
                 RespBody := BodyJSON (json.JObject
                                         (before ++ (key, json.JString text) :: after)) |} ->
  json.names key "erro" = true ->
  V1.weatherHandler W NewRecorder r t
  = (reply 500 (message "internal server error"), t ++ [ViaCEP_url (cep_of r)]).
Proof.
  intros Hvalid Hup Hkey.
  rewrite V1_weatherHandler_table, Hvalid.
  unfold V1.getLocationByCEP, bind, http_Get. fold (ViaCEP_url (cep_of r)).
  rewrite Hup. cbn [StatusCode RespBody V1.Decode_ViaCEPResponse].
  change (negb (200 =? StatusOK)%Z) with false. cbv iota.
  pose proof (V1_decode_type_error (before ++ (key, json.JString text) :: after)
                (V1.zero, None) I) as Htype.
  assert (Hsome : is_Some (snd (fold_left V1.ViaCEP_member
                                  (before ++ (key, json.JString text) :: after)
                                  (V1.zero, None)))).
  { rewrite fold_left_app. cbn [fold_left].
    apply V1_decode_keeps_error, V1_member_erro_text, Hkey. }
  destruct (fold_left V1.ViaCEP_member _ _) as [v err].
  cbn [snd] in *. destruct Hsome as [e ->].
  destruct e; try contradiction. cbn [fst snd ret].
  now rewrite type_error_text.
Qed.

Lemma V1_erro_text_is_server_error_witness :
  V1.weatherHandler sunny NewRecorder (GET "/weather/99999999") []
  = (reply 500 (message "internal server error"),
     ["https://viacep.com.br/ws/99999999/json/"]).
Proof.
  exact (V1_erro_text_is_server_error sunny (GET "/weather/99999999") []
           [] [] "erro" "true" eq_refl eq_refl eq_refl).
Defined.





(* ===================================================================== *)
(** * Further properties: what the decoders read *)
(* ===================================================================== *)

Section Reading.



End Reading.




